(** * Hummingbird: the ONNX-ML linear converter and the conversion entry points

    A shallow embedding of
      - [hummingbird/ml/operator_converters/onnxml_linear.py]
        ([convert_onnx_linear_model]), and
      - [hummingbird/ml/convert.py]
        ([convert_sklearn], [convert_lightgbm], [convert_xgboost],
        [convert_onnxml]),
    followed by the properties of both that the specification states. *)

From stdpp Require Import base option list strings gmap.
From Stdlib Require Import ZArith QArith.
Local Close Scope Q_scope.
Local Open Scope string_scope.
Local Open Scope nat_scope.

(** ** Python exceptions

    Both modules fail by raising. A raising computation is a value of
    [exn + A]: [inl e] is the exception that left the function, [inr a] the
    value it returned. Messages built with [str.format] are kept as their
    template, the placeholders unfilled. *)

Inductive exn : Type :=
  | AssertionError (msg : string)
  | RuntimeError (msg : string)
  | ValueError (msg : string)
  | TypeError (msg : string)
  | IndexError (msg : string)
  | MissingBackend (msg : string).

Definition result (A : Type) : Type := exn + A.

Definition raise {A : Type} (e : exn) : result A := inl e.

Definition rbind {A B : Type} (m : result A) (k : A → result B) : result B :=
  match m with
  | inl e => inl e
  | inr a => k a
  end.

Notation "'let!' x ':=' m 'in' k" := (rbind m (λ x, k))
  (at level 10, x name, m at level 100, k at level 200).

Definition failed {A : Type} (m : result A) : Prop :=
  match m with inl _ => True | inr _ => False end.

(** ** Extra configuration

    [extra_config] is a Python [dict] from string keys to values; the
    values the entry points themselves store are integers. *)

Inductive value : Type :=
  | VInt (n : Z)
  | VStr (s : string).

(** ** The fragment of numpy the converter uses

    An [ndarray] is its shape together with its elements in row-major
    order. The converter never computes with the scalars, it only moves
    them, so the scalar type is a parameter [F] of the development: the
    values of a protobuf [repeated float] field are single-precision already
    and [astype("float32")] leaves each of them as it is. *)

Module Np.
Section Ndarray.
Context {F : Type}.

Record ndarray : Type := mk_ndarray { shape : list nat; data : list F }.

(** [np.array(xs)] for a flat Python sequence of scalars. *)
Definition array1 (xs : list F) : ndarray :=
  {| shape := [length xs]; data := xs |}.

(** [np.array(rows)] for a Python list of equally long rows. The rank is
    read off the nesting, so the empty list gives the one-dimensional
    empty array of shape [(0,)]. *)
Definition array2 (rows : list (list F)) : ndarray :=
  match rows with
  | [] => {| shape := [0]; data := [] |}
  | r :: _ => {| shape := [length rows; length r]; data := mjoin rows |}
  end.

(** [len(a)]: the first dimension. *)
Definition len (a : ndarray) : nat := hd 0 (shape a).

(** [a[n:]] on a one-dimensional array. *)
Definition slice_from (n : nat) (a : ndarray) : ndarray :=
  array1 (drop n (data a)).

(** Iterating a one-dimensional array yields its scalars. *)
Definition iter1 (a : ndarray) : list F := data a.

(** [a.reshape(r, c)]: numpy refuses when the sizes disagree. *)
Definition reshape (a : ndarray) (r c : nat) : result ndarray :=
  if decide (r * c = length (data a))
  then inr {| shape := [r; c]; data := data a |}
  else raise (ValueError "cannot reshape array of size {} into shape {}").

(** Iterating a two-dimensional array yields its rows. *)
Definition rows (a : ndarray) : list (list F) :=
  match shape a with
  | [r; c] => (λ i, take c (drop (i * c) (data a))) <$> seq 0 r
  | _ => []
  end.

(** [a[i, j]] of a two-dimensional array. *)
Definition get2 (a : ndarray) (i j : nat) : option F :=
  match shape a with
  | [r; c] => if decide (i < r ∧ j < c) then data a !! (i * c + j) else None
  | _ => None
  end.

(** [a[:, j]] of a two-dimensional array. *)
Definition column (a : ndarray) (j : nat) : list F :=
  match shape a with
  | [r; c] => omap (λ i, get2 a i j) (seq 0 r)
  | _ => []
  end.
End Ndarray.
Global Arguments ndarray : clear implicits.
End Np.

(** ** Python's [zip] applied to the unpacked rows

  Every round asks each row for its next element and stops as soon as one
  of them is exhausted; with no row at all it yields nothing. The first
  row's length bounds the number of rounds. *)

Section Zip.
Context {A : Type}.

Definition heads (rows : list (list A)) : option (list A) := mapM head rows.

Fixpoint zip_rounds (fuel : nat) (rows : list (list A)) : list (list A) :=
  match fuel with
  | 0 => []
  | S fuel' =>
      match heads rows with
      | None => []
      | Some hs => hs :: zip_rounds fuel' (tail <$> rows)
      end
  end.

Definition zip_star (rows : list (list A)) : list (list A) :=
  match rows with
  | [] => []
  | r :: _ => zip_rounds (length r) rows
  end.
End Zip.

(** ** [onnxml_linear.py] *)

Module OnnxmlLinear.
Import Np.

Section Converter.
Context {F : Type}.

(** An ONNX [AttributeProto], with the fields a linear operator carries:
    its name, and the payload under [floats], [ints], [i] or [strings]
    (protobuf gives an unset field its default, empty or zero). *)
Record AttributeProto : Type := {
  attr_name : string;
  attr_floats : list F;
  attr_ints : list Z;
  attr_i : Z;
  attr_strings : list string
}.

(** The ONNX node behind a linked node, and the wrappers around it:
    [operator.raw_operator] is the linked node, [.origin] its ONNX node and
    [.op_type] the operator type of that node. *)
Record NodeProto : Type := {
  node_op_type : string;
  attribute : list AttributeProto
}.

Record LinkedNode : Type := { origin : NodeProto }.

Definition op_type (n : LinkedNode) : string := node_op_type (origin n).

Record Operator : Type := { raw_operator : LinkedNode }.

(** The arguments [LinearModel] is built from; the class itself lives in
    [_linear_implementations] and is only constructed here. *)
Record LinearModel : Type := {
  lm_coefficients : ndarray F;
  lm_intercepts : ndarray F;
  lm_device : option string;
  lm_classes : list Z;
  lm_multi_class : string;
  lm_is_linear_regression : bool
}.

(** The four locals the attribute loop fills, [None] until assigned. *)
Record locals : Type := {
  coefficients : option (ndarray F);
  intercepts : option (ndarray F);
  classes : option (list Z);
  multi_class : option string
}.

Definition locals_init : locals :=
  {| coefficients := None; intercepts := None; classes := None;
     multi_class := None |}.

(** One iteration of [for attr in operator.origin.attribute]. *)
Definition attribute_step (st : locals) (attr : AttributeProto) : locals :=
  if decide (attr_name attr = "coefficients") then
    {| coefficients := Some (array1 (attr_floats attr));
       intercepts := intercepts st; classes := classes st;
       multi_class := multi_class st |}
  else if decide (attr_name attr = "intercepts") then
    {| coefficients := coefficients st;
       intercepts := Some (array1 (attr_floats attr));
       classes := classes st; multi_class := multi_class st |}
  else if decide (attr_name attr = "classlabels_ints") then
    {| coefficients := coefficients st; intercepts := intercepts st;
       classes := Some (attr_ints attr); multi_class := multi_class st |}
  else if decide (attr_name attr = "multi_class") then
    if decide (attr_i attr ≠ 0%Z) then
      {| coefficients := coefficients st; intercepts := intercepts st;
         classes := classes st; multi_class := Some "multinomial" |}
    else st
  else st.

Definition scan_attributes (attrs : list AttributeProto) : locals :=
  foldl attribute_step locals_init attrs.

(** [if multi_class is None: multi_class = "none" if len(classes) < 3 else "ovr"] *)
Definition resolve_multi_class (mc : option string) (cls : list Z) : string :=
  match mc with
  | Some m => m
  | None => if decide (length cls < 3) then "none" else "ovr"
  end.

(** The reshaping of the parameters, by the number of classes. *)
Definition reshape_parameters (coefs ints : ndarray F) (cls : list Z)
  : result (ndarray F * ndarray F) :=
  if decide (length cls = 2) then
    let coefs' :=
      array2 ((λ val, [val]) <$> iter1 (slice_from (len coefs / 2) coefs)) in
    let ints' :=
      array2 ((λ val, [val]) <$> iter1 (slice_from (len ints / 2) ints)) in
    inr (coefs', ints')
  else if decide (2 < length cls) then
    let! tmp := reshape coefs (length cls) (len coefs / length cls) in
    inr (array2 (zip_star (rows tmp)), ints)
  else
    raise (RuntimeError
             "Error parsing LinearClassifier, length of classes {} unexpected:{}").

Definition convert_onnx_linear_model
    (operator : option Operator) (device : option string)
    (extra_config : gmap string value) : result LinearModel :=
  match operator with
  | None => raise (AssertionError "")
  | Some operator =>
      let operator := raw_operator operator in
      let st := scan_attributes (attribute (origin operator)) in
      match coefficients st, intercepts st, classes st with
      | Some coefs, Some ints, Some cls =>
          let multi_class := resolve_multi_class (multi_class st) cls in
          let is_linear_regression :=
            bool_decide (op_type operator = "LinearRegressor") in
          let! p := reshape_parameters coefs ints cls in
          inr {| lm_coefficients := p.1; lm_intercepts := p.2;
                 lm_device := device; lm_classes := cls;
                 lm_multi_class := multi_class;
                 lm_is_linear_regression := is_linear_regression |}
      | _, _, _ =>
          raise (RuntimeError
                   "Error parsing LinearClassifier, found unexpected None")
      end
  end.

End Converter.
Global Arguments AttributeProto : clear implicits.
Global Arguments NodeProto : clear implicits.
Global Arguments LinkedNode : clear implicits.
Global Arguments Operator : clear implicits.
Global Arguments LinearModel : clear implicits.
Global Arguments locals : clear implicits.
End OnnxmlLinear.

(** ** [convert.py] *)

Module Convert.

(** *** What the entry points see of their arguments *)

(** [test_input] and [test_data] are arbitrary Python objects; the entry
    points only ask whether one is an [np.ndarray] and for its shape. Of a
    synthesized array only the element type and the shape are fixed by the
    code, the elements themselves are drawn by [np.random.rand]. *)
Inductive dtype : Type := float64 | float32 | int32.

Inductive pyobj : Type :=
  | PyNdarray (dt : dtype) (shape : list nat)
  | PyOther (type_name : string).

(** The tensor types of [onnxmltools.convert.common.data_types], told apart
    by [type(t) is ...], and the [shape] attribute they carry. *)
Inductive tensor_type : Type :=
  | FloatTensorType
  | Int32TensorType
  | OtherTensorType (class_name : string).

(** A declared dimension is whatever the caller wrote: an integer, [None]
    for a dimension left open, or another object such as the name of a
    symbolic dimension. *)
Inductive dimension : Type :=
  | DInt (n : Z)
  | DNone
  | DOther (type_name : string).

Record data_type : Type := {
  type_of : tensor_type;
  dt_shape : option (list dimension)
}.

(** The part of the ONNX graph [convert_onnxml] reads. Nodes and
    initializers are handed on untouched. *)
Record ValueInfoProto : Type := { vi_name : string }.

Record GraphProto (Node Init : Type) : Type := {
  input : list ValueInfoProto;
  output : option (list ValueInfoProto);
  node : list Node;
  initializer : list Init
}.
Global Arguments input {_ _} _.
Global Arguments output {_ _} _.
Global Arguments node {_ _} _.
Global Arguments initializer {_ _} _.

(** [_utils]: which optional packages can be imported. *)
Record installed : Type := {
  torch_installed : bool;
  lightgbm_installed : bool;
  xgboost_installed : bool;
  onnx_installed : bool
}.

(** [constants.N_FEATURES], the key the docstring of [convert_xgboost]
    spells out. *)
Definition N_FEATURES : string := "n_features".

(** *** Effects

    An entry point runs against the caller's [extra_config] dictionary,
    which it may update in place, and calls into the parser and the IR
    converters. The state is that dictionary together with the calls made
    so far; an exception ends the computation and leaves the state as it
    was at the raise. *)
Inductive call : Type :=
  | ParseSklearnApiModel
  | TopologyConverter
  | BuildFromOnnx
  | LinkedNodeConverter.

Record state : Type := {
  extra_config : gmap string value;
  calls : list call
}.

Definition M (A : Type) : Type := state → state * result A.

Definition ret {A : Type} (a : A) : M A := λ s, (s, inr a).

Definition throw {A : Type} (e : exn) : M A := λ s, (s, inl e).

Definition bind {A B : Type} (m : M A) (k : A → M B) : M B :=
  λ s, match m s with
       | (s', inl e) => (s', inl e)
       | (s', inr a) => k a s'
       end.

Notation "'do' x <- m ; k" := (bind m (λ x, k))
  (at level 10, x name, m at level 100, k at level 200).
Notation "m ;; k" := (bind m (λ _, k))
  (at level 100, k at level 200, right associativity).

(** [assert cond, msg] *)
Definition assert (cond : bool) (msg : string) : M unit :=
  if cond then ret tt else throw (AssertionError msg).

(** [key in extra_config], [extra_config[key] = v], and reading the whole
    dictionary to pass it on. *)
Definition contains (key : string) : M bool :=
  λ s, (s, inr (bool_decide (is_Some (extra_config s !! key)))).

Definition setitem (key : string) (v : value) : M unit :=
  λ s, ({| extra_config := <[key := v]> (extra_config s); calls := calls s |},
        inr tt).

Definition the_config : M (gmap string value) :=
  λ s, (s, inr (extra_config s)).

(** A call into code outside this module: it is recorded, and returns or
    raises what the callee does. *)
Definition external {A : Type} (c : call) (r : result A) : M A :=
  λ s, ({| extra_config := extra_config s; calls := calls s ++ [c] |}, r).

Section EntryPoints.
(** The collaborators of the entry points. *)
Context {Model Topology HbModel : Type}.
Context {Node Init IR OnnxModel : Type}.
Variable env : installed.

(** [dir(model)] lists [_features_count] exactly for the models that
    report their number of features. *)
Variable _features_count : Model → option value.

Variable parse_sklearn_api_model : Model → result Topology.

(** Modelled from the spec: [ir_converters.topology.convert] and
    [ir_converters.linked_node.convert] are not part of the two modules
    embedded here. The specification has the extra configuration
    threaded unmodified down to every converter, which only reads the keys
    it recognizes: the two converters receive the dictionary and return a
    model or raise. *)
Variable topology_converter : Topology → gmap string value → result HbModel.

Variable linked_node_converter :
  IR → list ValueInfoProto → list Init → list string → pyobj →
  gmap string value → result OnnxModel.

(** [LinkedNode.build_from_onnx] of onnxconverter_common. *)
Variable build_from_onnx :
  list Node → list string → list string → list string → list Init → result IR.

(** The keys of [supported.backend_map]. *)
Variable backend_map : gset string.

(** [_supported_backend_check]; [lower] is [str.lower] on ASCII names. *)
Definition lower_char (c : Ascii.ascii) : Ascii.ascii :=
  let n := Ascii.nat_of_ascii c in
  if (65 <=? n) && (n <=? 90) then Ascii.ascii_of_nat (n + 32) else c.

Fixpoint lower (s : string) : string :=
  match s with
  | EmptyString => EmptyString
  | String c s' => String (lower_char c) (lower s')
  end.

Definition _supported_backend_check (backend : string) : M unit :=
  if negb (bool_decide (lower backend ∈ backend_map))
  then throw (MissingBackend "Backend: {}")
  else ret tt.

(** [copy.deepcopy]: values are immutable here, the copy is the value. *)
Definition deepcopy (model : Model) : Model := model.

Definition convert_sklearn (model : option Model) (test_input : option pyobj)
  : M HbModel :=
  match model with
  | None => throw (AssertionError "")
  | Some model =>
      assert (torch_installed env)
        "To use Hummingbird you need to install torch." ;;
      let model := deepcopy model in
      do topology <- external ParseSklearnApiModel (parse_sklearn_api_model model);
      do cfg <- the_config;
      do hb_model <- external TopologyConverter (topology_converter topology cfg);
      ret hb_model
  end.

Definition convert_lightgbm (model : option Model) (test_input : option pyobj)
  : M HbModel :=
  assert (lightgbm_installed env)
    "To convert LightGBM models you need to instal LightGBM." ;;
  convert_sklearn model test_input.

Definition convert_xgboost (model : option Model) (test_input : option pyobj)
  : M HbModel :=
  assert (xgboost_installed env)
    "To convert XGboost models you need to instal XGBoost." ;;
  do present <- contains N_FEATURES;
  (if negb present then
     match model ≫= _features_count with
     | Some n => setitem N_FEATURES n
     | None =>
         match test_input with
         | Some (PyNdarray _ [_; columns]) =>
             setitem N_FEATURES (VInt (Z.of_nat columns))
         | Some _ =>
             throw (RuntimeError
               "XGBoost converter is not able to infer the number of input features.                        Apparently test_input is not an ndarray.                         Please fill an issue at https://github.com/microsoft/hummingbird/.")
         | None =>
             throw (RuntimeError
               "XGBoost converter is not able to infer the number of input features.                    Please pass some test_input to the converter.")
         end
     end
   else ret tt) ;;
  convert_sklearn model test_input.

(** The methods attached to the models: check the backend, then convert. *)
Definition _to_sklearn (self : option Model) (backend : string)
    (test_input : option pyobj) : M HbModel :=
  _supported_backend_check backend ;;
  convert_sklearn self test_input.

Definition _to_lightgbm (self : option Model) (backend : string)
    (test_input : option pyobj) : M HbModel :=
  _supported_backend_check backend ;;
  convert_lightgbm self test_input.

Definition _to_xgboost (self : option Model) (backend : string)
    (test_input : option pyobj) : M HbModel :=
  _supported_backend_check backend ;;
  convert_xgboost self test_input.

(** The block under [if test_data is None]: a random array of the declared
    shape, cast to the declared element type.

    [np.random.rand(d0, d1)] first turns every dimension into an integer,
    a TypeError for [None] and for any object that is not one, and then
    refuses a negative dimension with a ValueError. *)
Definition not_an_integer (d : dimension) : option string :=
  match d with
  | DInt _ => None
  | DNone => Some "'NoneType' object cannot be interpreted as an integer"
  | DOther t =>
      Some (String.append "'"
              (String.append t "' object cannot be interpreted as an integer"))
  end.

Definition random_rand (d0 d1 : dimension) : result pyobj :=
  match d0, d1 with
  | DInt r, DInt c =>
      if decide (0 ≤ r ∧ 0 ≤ c)%Z
      then inr (PyNdarray float64 [Z.to_nat r; Z.to_nat c])
      else raise (ValueError "negative dimensions are not allowed")
  | _, _ =>
      raise (TypeError
               (default "" (union (not_an_integer d0) (not_an_integer d1))))
  end.

(** A computation of [result] run inside an entry point. *)
Definition lift {A : Type} (r : result A) : M A := λ s, (s, r).

Definition array_as (a : pyobj) (dt : dtype) : pyobj :=
  match a with
  | PyNdarray _ shape => PyNdarray dt shape
  | PyOther t => PyOther t
  end.

Definition getitem {A : Type} (l : list A) (i : nat) : M A :=
  match l !! i with
  | Some x => ret x
  | None => throw (IndexError "list index out of range")
  end.

Definition synthesize_test_data
    (initial_types : option (list (string * data_type))) : M pyobj :=
  match initial_types with
  | None => throw (TypeError "'NoneType' object is not subscriptable")
  | Some initial_types =>
      do first <- getitem initial_types 0;
      match dt_shape first.2 with
      | None =>
          throw (AssertionError
            "Cannot generate test input data. Initial_types do not contain shape information.")
      | Some shape =>
          assert (bool_decide (length shape = 2))
            "Hummingbird currently support only inputs with len(shape) == 2." ;;
          do d0 <- getitem shape 0;
          do d1 <- getitem shape 1;
          do test_data <- lift (random_rand d0 d1);
          match type_of first.2 with
          | FloatTensorType => ret (array_as test_data float32)
          | Int32TensorType => ret (array_as test_data int32)
          | OtherTensorType _ =>
              throw (RuntimeError
                "Type {} not supported. Please fill an issue on https://github.com/microsoft/hummingbird/.")
          end
      end
  end.

(** The inputs of the model that [input_names] selects; without
    [input_names], every declared input. *)
Definition resolve_inputs (model : GraphProto Node Init)
    (input_names : option (list string)) : list ValueInfoProto :=
  let input_names := default (vi_name <$> input model) input_names in
  filter (λ in_, vi_name in_ ∈ input_names) (input model).

Definition convert_onnxml
    (model : option (GraphProto Node Init))
    (output_model_name : option string)
    (initial_types : option (list (string * data_type)))
    (input_names output_names : option (list string))
    (test_data : option pyobj) (target_opset : nat) : M OnnxModel :=
  match model with
  | None => throw (AssertionError "")
  | Some model =>
      assert (torch_installed env)
        "To use Hummingbird you need to install torch." ;;
      assert (onnx_installed env)
        "To use the onnxml converter you need to install onnx and onnxruntime." ;;
      assert (bool_decide (is_Some test_data ∨ is_Some initial_types))
        "Cannot generate test input data. Either pass some input data or the initial_types" ;;
      let inputs := resolve_inputs model input_names in
      assert (bool_decide (0 < length inputs))
        "Provided input name does not match with any model's input." ;;
      assert (bool_decide (length inputs = 1))
        "Hummingbird currently do not support models with more than 1 input." ;;
      assert (match initial_types with
              | None => true
              | Some ts => bool_decide (length ts = 1)
              end)
        "len(initial_types) {} differs from len(inputs) {}." ;;
      let output_names :=
        match output_names with
        | Some names => names
        | None =>
            match output model with
            | None => []
            | Some outs => vi_name <$> outs
            end
        end in
      do test_data <-
        match test_data with
        | Some data => ret data
        | None => synthesize_test_data initial_types
        end;
      do onnx_ir <-
        external BuildFromOnnx
          (build_from_onnx (node model) [] (vi_name <$> input model)
             output_names (initializer model));
      do cfg <- the_config;
      do onnx_model <-
        external LinkedNodeConverter
          (linked_node_converter onnx_ir inputs (initializer model)
             output_names test_data cfg);
      ret onnx_model
  end.

End EntryPoints.
End Convert.

(** ** Vocabulary of the properties *)

Module LinearSpec.
Import Np OnnxmlLinear.

Section Attributes.
Context {F : Type}.

(** No attribute of the operator carries the name [n]. *)
Definition absent (n : string) (attrs : list (AttributeProto F)) : Prop :=
  ∀ a, a ∈ attrs → attr_name a ≠ n.

(** The attribute named [n] that the loop ends up with: the last one, should
    the name occur more than once. *)
Definition last_attr (n : string) (attrs : list (AttributeProto F))
  : option (AttributeProto F) :=
  last (filter (λ a, attr_name a = n) attrs).

(** Some [multi_class] attribute is present with a non-zero value. *)
Definition explicit_multi_class (attrs : list (AttributeProto F)) : Prop :=
  Exists (λ a, attr_name a = "multi_class" ∧ attr_i a ≠ 0%Z) attrs.

Definition attrs_of (op : Operator F) : list (AttributeProto F) :=
  attribute (origin (raw_operator op)).

End Attributes.

(** The message of the error on a missing attribute. *)
Definition unexpected_None : string :=
  "Error parsing LinearClassifier, found unexpected None".

(** Concrete operators, with rational scalars. *)
Definition attr (n : string) (fl : list Q) (labels : list Z) (flag : Z)
    (names : list string) : AttributeProto Q :=
  {| attr_name := n; attr_floats := fl; attr_ints := labels; attr_i := flag;
     attr_strings := names |}.

Definition floats_attr (n : string) (fl : list Q) : AttributeProto Q :=
  attr n fl [] 0 [].

Definition ints_attr (n : string) (labels : list Z) : AttributeProto Q :=
  attr n [] labels 0 [].

Definition classifier (attrs : list (AttributeProto Q)) : Operator Q :=
  {| raw_operator :=
       {| origin := {| node_op_type := "LinearClassifier";
                       attribute := attrs |} |} |}.

(** Scenario A of the specification. *)
Definition scenario_A : Operator Q :=
  classifier [floats_attr "coefficients" [1%Q; 2%Q; (-1)%Q; (-2)%Q];
              floats_attr "intercepts" [(1 # 2)%Q; (-1 # 2)%Q];
              ints_attr "classlabels_ints" [0%Z; 1%Z]].

(** A binary classifier over no feature at all. *)
Definition binary_no_feature : Operator Q :=
  classifier [floats_attr "coefficients" [];
              floats_attr "intercepts" [];
              ints_attr "classlabels_ints" [0%Z; 1%Z]].

(** Scenario B of the specification: three classes, three features. *)
Definition scenario_B : Operator Q :=
  classifier [floats_attr "coefficients"
                [1%Q; 2%Q; 3%Q; 4%Q; 5%Q; 6%Q; 7%Q; 8%Q; 9%Q];
              floats_attr "intercepts" [(1 # 2)%Q; 0%Q; (-1 # 2)%Q];
              ints_attr "classlabels_ints" [0%Z; 1%Z; 2%Z]].

(** Three classes over no feature at all. *)
Definition three_classes_no_feature : Operator Q :=
  classifier [floats_attr "coefficients" [];
              floats_attr "intercepts" [(1 # 2)%Q; 0%Q; (-1 # 2)%Q];
              ints_attr "classlabels_ints" [0%Z; 1%Z; 2%Z]].

(** Three classes, flagged multinomial. *)
Definition scenario_multinomial : Operator Q :=
  classifier [floats_attr "coefficients" [1%Q; 2%Q; 3%Q];
              floats_attr "intercepts" [0%Q; 0%Q; 0%Q];
              ints_attr "classlabels_ints" [0%Z; 1%Z; 2%Z];
              attr "multi_class" [] [] 1 []].

(** Two classes, flagged multinomial. *)
Definition binary_multinomial : Operator Q :=
  classifier [floats_attr "coefficients" [1%Q; 2%Q; (-1)%Q; (-2)%Q];
              floats_attr "intercepts" [(1 # 2)%Q; (-1 # 2)%Q];
              ints_attr "classlabels_ints" [0%Z; 1%Z];
              attr "multi_class" [] [] 1 []].

(** A classifier whose labels are strings. *)
Definition string_labels : Operator Q :=
  classifier [floats_attr "coefficients" [1%Q; 2%Q; (-1)%Q; (-2)%Q];
              floats_attr "intercepts" [(1 # 2)%Q; (-1 # 2)%Q];
              attr "classlabels_strings" [] [] 0 ["no"; "yes"]].

(** A classifier without intercepts. *)
Definition missing_intercepts : Operator Q :=
  classifier [floats_attr "coefficients" [1%Q; 2%Q; (-1)%Q; (-2)%Q];
              ints_attr "classlabels_ints" [0%Z; 1%Z]].

(** A classifier with a single class. *)
Definition one_class : Operator Q :=
  classifier [floats_attr "coefficients" [1%Q; 2%Q];
              floats_attr "intercepts" [(1 # 2)%Q];
              ints_attr "classlabels_ints" [0%Z]].

End LinearSpec.

Module ConvertSpec.
Import Convert.

(** The number of columns of [test_input] when it is a two-dimensional
    [np.ndarray]; nothing when it is absent or anything else. *)
Definition two_dimensional (test_input : option pyobj) : option nat :=
  match test_input with
  | Some (PyNdarray _ [_; columns]) => Some columns
  | _ => None
  end.

(** The feature count the three sources give, in the order the code asks
    them: the configuration, the model's own report, the test input. *)
Definition infer_n_features (cfg : gmap string value)
    (reported : option value) (test_input : option pyobj) : option value :=
  match cfg !! N_FEATURES with
  | Some v => Some v
  | None =>
      match reported with
      | Some v => Some v
      | None => (λ columns, VInt (Z.of_nat columns)) <$> two_dimensional test_input
      end
  end.

(** The configuration [convert_xgboost] leaves behind. *)
Definition config_after_xgboost (env : installed) (cfg : gmap string value)
    (reported : option value) (test_input : option pyobj)
  : gmap string value :=
  if xgboost_installed env then
    match infer_n_features cfg reported test_input with
    | Some n => <[N_FEATURES := n]> cfg
    | None => cfg
    end
  else cfg.

(** The two messages of the error on a feature count that cannot be
    inferred. *)
Definition not_an_ndarray : string :=
  "XGBoost converter is not able to infer the number of input features.                        Apparently test_input is not an ndarray.                         Please fill an issue at https://github.com/microsoft/hummingbird/.".

Definition no_test_input : string :=
  "XGBoost converter is not able to infer the number of input features.                    Please pass some test_input to the converter.".

Definition more_than_one_input : string :=
  "Hummingbird currently do not support models with more than 1 input.".


(** The state with the configuration replaced. *)
Definition with_config (s : state) (cfg : gmap string value) : state :=
  {| extra_config := cfg; calls := calls s |}.

(** The output names [convert_onnxml] falls back on. *)
Definition default_output_names {Node Init : Type}
    (model : GraphProto Node Init) : list string :=
  match output model with
  | None => []
  | Some outs => vi_name <$> outs
  end.

(** The state after the listed calls. *)
Definition after_calls (s : state) (cs : list call) : state :=
  {| extra_config := extra_config s; calls := calls s ++ cs |}.

(** A computation that leaves the caller's configuration as it found it. *)
Definition keeps_config {A : Type} (m : M A) : Prop :=
  ∀ s, extra_config (m s).1 = extra_config s.

(** The checks at the top of [convert_onnxml] that come before the
    synthesis of test data. *)
Definition entry_checks_pass {Node Init : Type} (env : installed)
    (model : GraphProto Node Init) (input_names : option (list string))
    (initial_types : option (list (string * data_type))) : Prop :=
  torch_installed env = true ∧ onnx_installed env = true ∧
  length (resolve_inputs model input_names) = 1 ∧
  (∀ ts, initial_types = Some ts → length ts = 1).

(** *** A small world to run the entry points in

    A model is its optional feature count, parsing always succeeds and the
    converters return the configuration they were handed. *)
Definition all_installed : installed :=
  {| torch_installed := true; lightgbm_installed := true;
     xgboost_installed := true; onnx_installed := true |}.

Definition toy_features_count (model : option Z) : option value :=
  VInt <$> model.

Definition toy_parse (model : option Z) : result unit := inr tt.

Definition toy_topology_converter (t : unit) (cfg : gmap string value)
  : result (gmap string value) := inr cfg.

Definition toy_xgboost :=
  convert_xgboost (Model := option Z) all_installed toy_features_count
    toy_parse toy_topology_converter.

Definition toy_build (nodes : list unit) (nchw ins outs : list string)
    (inits : list unit) : result unit := inr tt.

Definition toy_linked_node_converter (ir : unit) (ins : list ValueInfoProto)
    (inits : list unit) (outs : list string) (test_data : pyobj)
    (cfg : gmap string value) : result pyobj := inr test_data.

Definition toy_onnxml :=
  convert_onnxml (Node := unit) (Init := unit) all_installed
    toy_linked_node_converter toy_build.

Definition start (cfg : gmap string value) : state :=
  {| extra_config := cfg; calls := [] |}.

(** Scenario D of the specification: a graph with two declared inputs. *)
Definition two_inputs : GraphProto unit unit :=
  {| input := [ {| vi_name := "X" |}; {| vi_name := "Y" |} ];
     output := Some [ {| vi_name := "probabilities" |} ];
     node := [tt]; initializer := [] |}.

Definition one_input : GraphProto unit unit :=
  {| input := [ {| vi_name := "X" |} ];
     output := Some [ {| vi_name := "probabilities" |} ];
     node := [tt]; initializer := [] |}.

Definition float_1_20 : data_type :=
  {| type_of := FloatTensorType; dt_shape := Some [DInt 1; DInt 20] |}.





End ConvertSpec.

(** ** Further operators and calls to run the code on *)

Module MoreExamples.
Import Np OnnxmlLinear LinearSpec Convert ConvertSpec.

(** The three names the converter looks for. *)
Definition parameter_names : list string :=
  ["coefficients"; "intercepts"; "classlabels_ints"].

Definition regressor (attrs : list (AttributeProto Q)) : Operator Q :=
  {| raw_operator :=
       {| origin := {| node_op_type := "LinearRegressor";
                       attribute := attrs |} |} |}.

(** A binary classifier with an odd number of coefficients. *)
Definition odd_binary : Operator Q :=
  classifier [floats_attr "coefficients" [1%Q; 2%Q; 3%Q];
              floats_attr "intercepts" [(1 # 2)%Q];
              ints_attr "classlabels_ints" [0%Z; 1%Z]].

(** Three classes and four coefficients. *)
Definition indivisible : Operator Q :=
  classifier [floats_attr "coefficients" [1%Q; 2%Q; 3%Q; 4%Q];
              floats_attr "intercepts" [0%Q; 0%Q; 0%Q];
              ints_attr "classlabels_ints" [0%Z; 1%Z; 2%Z]].

(** Scenario A with its attributes in another order. *)
Definition scenario_A_reordered : Operator Q :=
  classifier [ints_attr "classlabels_ints" [0%Z; 1%Z];
              floats_attr "coefficients" [1%Q; 2%Q; (-1)%Q; (-2)%Q];
              floats_attr "intercepts" [(1 # 2)%Q; (-1 # 2)%Q]].

(** Scenario B as a regressor node flagged multinomial, with a further
    attribute the converter does not know. *)
Definition scenario_B_decorated : Operator Q :=
  regressor [attr "multi_class" [] [] 1 [];
             floats_attr "coefficients"
               [1%Q; 2%Q; 3%Q; 4%Q; 5%Q; 6%Q; 7%Q; 8%Q; 9%Q];
             attr "post_transform" [] [] 0 ["SOFTMAX"];
             floats_attr "intercepts" [(1 # 2)%Q; 0%Q; (-1 # 2)%Q];
             ints_attr "classlabels_ints" [0%Z; 1%Z; 2%Z]].

(** Entry points over the small world, and a parser that fails. *)
Definition toy_sklearn :=
  convert_sklearn (Model := option Z) all_installed toy_parse
    toy_topology_converter.

Definition toy_parse_fails (model : option Z) : result unit :=
  inl (RuntimeError "unsupported model").

Definition toy_build_fails (nodes : list unit) (nchw ins outs : list string)
    (inits : list unit) : result unit :=
  inl (RuntimeError "unsupported node").

Definition toy_backends : gset string := {[ "torch"; "pytorch" ]}.

(** The call of the docstring of [convert_xgboost]: a list as test input
    and the feature count in the configuration. *)
Definition docstring_config : gmap string value :=
  {[ "n_features" := VInt 200 ]}.

Definition string_1_20 : data_type :=
  {| type_of := OtherTensorType "StringTensorType"; dt_shape := Some [DInt 1; DInt 20] |}.

Definition float_no_shape : data_type :=
  {| type_of := FloatTensorType; dt_shape := None |}.

Definition float_rank_3 : data_type :=
  {| type_of := FloatTensorType; dt_shape := Some [DInt 1; DInt 2; DInt 3] |}.

Definition toy_onnxml_build_fails :=
  convert_onnxml (Node := unit) (Init := unit) all_installed
    toy_linked_node_converter toy_build_fails.

Definition without_lightgbm : installed :=
  {| torch_installed := true; lightgbm_installed := false;
     xgboost_installed := true; onnx_installed := true |}.

End MoreExamples.

(** * Properties of the linear converter *)

Module LinearFacts.
Import Np OnnxmlLinear LinearSpec.

(** ** The attribute loop keeps the last attribute of each name *)

Section Scan.
Context {F : Type}.
Implicit Types (attrs : list (AttributeProto F)) (a : AttributeProto F).

Lemma scan_snoc attrs a :
  scan_attributes (attrs ++ [a]) = attribute_step (scan_attributes attrs) a.
Proof. unfold scan_attributes. by rewrite foldl_app. Qed.

Lemma last_attr_snoc n attrs a :
  last_attr n (attrs ++ [a]) =
  if decide (attr_name a = n) then Some a else last_attr n attrs.
Proof.
  unfold last_attr. rewrite filter_app, filter_cons, filter_nil.
  destruct (decide (attr_name a = n)).
  - apply last_snoc.
  - by rewrite app_nil_r.
Qed.

Lemma last_attr_absent n attrs : absent n attrs ↔ last_attr n attrs = None.
Proof.
  unfold absent, last_attr. rewrite last_None. split.
  - intros Hno.
    destruct (filter _ attrs) as [|x l] eqn:E; [done|].
    assert (x ∈ filter (λ a, attr_name a = n) attrs) as Hx
      by (rewrite E; left).
    apply list_elem_of_filter in Hx as [Hn Hin]. by destruct (Hno x Hin).
  - intros E a Hin Hn. by eapply (filter_nil_not_elem_of _ _ a E).
Qed.

Lemma last_attr_name n attrs a : last_attr n attrs = Some a → attr_name a = n.
Proof.
  unfold last_attr. intros [l E]%last_Some.
  assert (a ∈ filter (λ a, attr_name a = n) attrs) as Hin.
  { rewrite E. apply elem_of_app. right. left. }
  by apply list_elem_of_filter in Hin as [? _].
Qed.

Ltac step_cases :=
  unfold attribute_step; repeat case_decide; simplify_eq/=; auto;
  try congruence.

Lemma scan_coefficients attrs :
  coefficients (scan_attributes attrs) =
  (λ a, array1 (attr_floats a)) <$> last_attr "coefficients" attrs.
Proof.
  induction attrs as [|a attrs IH] using rev_ind; [done|].
  rewrite scan_snoc, last_attr_snoc. step_cases.
Qed.

Lemma scan_intercepts attrs :
  intercepts (scan_attributes attrs) =
  (λ a, array1 (attr_floats a)) <$> last_attr "intercepts" attrs.
Proof.
  induction attrs as [|a attrs IH] using rev_ind; [done|].
  rewrite scan_snoc, last_attr_snoc. step_cases.
Qed.

Lemma scan_classes attrs :
  classes (scan_attributes attrs) =
  attr_ints <$> last_attr "classlabels_ints" attrs.
Proof.
  induction attrs as [|a attrs IH] using rev_ind; [done|].
  rewrite scan_snoc, last_attr_snoc. step_cases.
Qed.

Lemma scan_multi_class attrs :
  multi_class (scan_attributes attrs) =
  if decide (explicit_multi_class attrs) then Some "multinomial" else None.
Proof.
  unfold explicit_multi_class.
  induction attrs as [|a attrs IH] using rev_ind.
  - destruct (decide _) as [H|H]; [by apply Exists_nil in H|done].
  - rewrite scan_snoc.
    assert (Exists (λ a, attr_name a = "multi_class" ∧ attr_i a ≠ 0%Z)
              (attrs ++ [a]) ↔
            Exists (λ a, attr_name a = "multi_class" ∧ attr_i a ≠ 0%Z) attrs
            ∨ (attr_name a = "multi_class" ∧ attr_i a ≠ 0%Z)) as Hsnoc.
    { rewrite Exists_app, Exists_cons, Exists_nil. tauto. }
    destruct (decide (Exists _ (attrs ++ [a]))) as [Hall|Hall];
      destruct (decide (Exists _ attrs)) as [Hpre|Hpre];
      [ | apply Hsnoc in Hall as [?|[Hn Hi]]; [done|]
        | destruct Hall; apply Hsnoc; by left
        | assert (¬ (attr_name a = "multi_class" ∧ attr_i a ≠ 0%Z)) by tauto ];
      unfold attribute_step; repeat case_decide; simpl;
      try done; try congruence; tauto.
Qed.

End Scan.

(** ** Transposing with [zip] *)

Section ZipFacts.
Context {A : Type}.
Implicit Types (R : list (list A)) (r : list A).

Lemma heads_lookup R : heads R = mapM (λ r, r !! 0) R.
Proof.
  unfold heads. induction R as [|r R IH]; [done|].
  cbn. rewrite IH. by rewrite head_lookup.
Qed.

Lemma mapM_lookup_tail R i :
  mapM (λ r, r !! i) (tail <$> R) = mapM (λ r, r !! S i) R.
Proof.
  induction R as [|r R IH]; [done|].
  cbn. rewrite IH. by rewrite lookup_tail.
Qed.

Lemma heads_None_lookup R i : heads R = None → mapM (λ r, r !! i) R = None.
Proof.
  unfold heads. induction R as [|r R IH]; [done|].
  cbn. destruct r as [|x r]; [done|]. cbn.
  destruct (mapM head R) eqn:E; [done|].
  intros _. rewrite IH by done. by destruct (_ !! i).
Qed.

Lemma zip_rounds_lookup fuel R i :
  zip_rounds fuel R !! i =
  if decide (i < fuel) then mapM (λ r, r !! i) R else None.
Proof.
  revert R i. induction fuel as [|fuel IH]; intros R i; cbn [zip_rounds].
  { destruct (decide (i < 0)); [lia|done]. }
  destruct (heads R) as [hs|] eqn:E.
  - destruct i as [|i]; cbn [lookup list_lookup].
    + rewrite <- heads_lookup, E. destruct (decide (0 < S fuel)); [done|lia].
    + rewrite IH, mapM_lookup_tail.
      destruct (decide (i < fuel)), (decide (S i < S fuel)); done || lia.
  - rewrite (heads_None_lookup _ _ E). by destruct (decide _).
Qed.

Lemma zip_rounds_length fuel R :
  Forall (λ r, fuel ≤ length r) R → length (zip_rounds fuel R) = fuel.
Proof.
  revert R. induction fuel as [|fuel IH]; intros R HR; [done|]. simpl.
  assert (is_Some (heads R)) as [hs ->].
  { unfold heads. apply mapM_is_Some. eapply Forall_impl; [exact HR|].
    intros [|x r]; simpl; [lia|eauto]. }
  simpl. f_equal. apply IH.
  apply Forall_fmap. eapply Forall_impl; [exact HR|].
  intros [|x r]; simpl; lia.
Qed.

(** The bound on the rounds never cuts the iteration short: round [i]
    exists exactly when every row has an element [i]. *)
Lemma zip_star_lookup R i :
  R ≠ [] → zip_star R !! i = mapM (λ r, r !! i) R.
Proof.
  intros HR. destruct R as [|r R]; [done|]. unfold zip_star.
  rewrite zip_rounds_lookup. destruct (decide (i < length r)); [done|].
  cbn. rewrite lookup_ge_None_2 by lia. done.
Qed.

(** On [c] rows of one length [m], [zip] returns the [m] columns. *)
Lemma zip_star_columns R m i col :
  R ≠ [] → Forall (λ r, length r = m) R →
  zip_star R !! i = Some col →
  i < m ∧ Forall2 (λ r y, r !! i = Some y) R col.
Proof.
  intros HR Hm. destruct R as [|r R]; [done|]. unfold zip_star.
  assert (length r = m) as -> by by inv Hm.
  rewrite zip_rounds_lookup. case_decide; [|done].
  intros Hcol%mapM_Some. done.
Qed.

Lemma zip_star_length R m :
  R ≠ [] → Forall (λ r, length r = m) R → length (zip_star R) = m.
Proof.
  intros HR Hm. destruct R as [|r R]; [done|]. unfold zip_star.
  assert (length r = m) as -> by by inv Hm.
  apply zip_rounds_length. eapply Forall_impl; [exact Hm|].
  simpl. intros; lia.
Qed.

End ZipFacts.

(** ** Arrays built from rows *)

Section ArrayFacts.
Context {F : Type}.
Implicit Types (l : list F).

Lemma mjoin_singletons l : mjoin ((λ v, [v]) <$> l) = l.
Proof. induction l as [|x l IH]; [done|]. cbn. f_equal. exact IH. Qed.

Lemma array2_singletons l :
  l ≠ [] →
  array2 ((λ v, [v]) <$> l) = {| shape := [length l; 1]; data := l |}.
Proof.
  destruct l as [|x l]; [done|]. intros _. unfold array2.
  cbn [fmap list_fmap]. f_equal.
  - cbn. by rewrite length_fmap.
  - apply (mjoin_singletons (x :: l)).
Qed.

Lemma rows_singletons l :
  rows {| shape := [length l; 1]; data := l |} = (λ v, [v]) <$> l.
Proof.
  unfold rows. cbn [shape data]. apply list_eq. intros i.
  rewrite !list_lookup_fmap.
  destruct (l !! i) as [x|] eqn:E.
  - rewrite lookup_seq_lt by (by eapply lookup_lt_Some). cbn.
    rewrite Nat.mul_1_r. by rewrite (drop_S _ _ _ E).
  - rewrite lookup_seq_ge by (by apply lookup_ge_None). done.
Qed.

Lemma omap_seq_lookup (f : nat → option F) l s :
  (∀ i, i < length l → f (s + i) = l !! i) →
  omap f (seq s (length l)) = l.
Proof.
  revert s. induction l as [|x l IH]; intros s Hf; [done|].
  cbn. specialize (Hf 0 ltac:(simpl; lia)) as H0.
  rewrite Nat.add_0_r in H0. rewrite H0. cbn. f_equal.
  apply IH. intros i Hi.
  replace (S s + i) with (s + S i) by lia. apply Hf. simpl. lia.
Qed.

(** The blocks [reshape] cuts a flat array of [c * m] scalars into. *)
Lemma rows_blocks l c m :
  rows {| shape := [c; m]; data := l |} =
  (λ j, take m (drop (j * m) l)) <$> seq 0 c.
Proof. done. Qed.

Lemma blocks_uniform l c m :
  length l = c * m →
  Forall (λ r, length r = m) ((λ j, take m (drop (j * m) l)) <$> seq 0 c).
Proof.
  intros Hl. apply Forall_fmap, Forall_forall. intros j Hj.
  apply elem_of_seq in Hj. cbn.
  rewrite length_take, length_drop. nia.
Qed.

(** Reshape into [c] blocks of length [m], then [zip]: the array of shape
    [(m, c)] whose entry [(i, j)] is scalar [j * m + i] of the flat array. *)
Lemma transposed_blocks l c m :
  0 < c → 0 < m → length l = c * m →
  let a := array2 (zip_star (rows {| shape := [c; m]; data := l |})) in
  shape a = [m; c] ∧
  ∀ i j, i < m → j < c → get2 a i j = l !! (j * m + i).
Proof.
  intros Hc Hm Hl. rewrite rows_blocks.
  set (R := (λ j, take m (drop (j * m) l)) <$> seq 0 c).
  assert (R ≠ []) as HR.
  { intros E. apply (f_equal length) in E.
    unfold R in E. rewrite length_fmap, length_seq in E. simpl in E. lia. }
  pose proof (blocks_uniform l c m Hl) as HRm. fold R in HRm.
  pose proof (zip_star_length R m HR HRm) as HZlen.
  assert (Forall (λ col, length col = c) (zip_star R)) as HZc.
  { apply Forall_lookup. intros i col Hcol.
    apply (zip_star_columns R m) in Hcol as [_ Hcol]; [|done..].
    apply Forall2_length in Hcol. rewrite <- Hcol.
    unfold R. by rewrite length_fmap, length_seq. }
  destruct (zip_star R) as [|col0 Z] eqn:EZ; [simpl in HZlen; lia|].
  assert (length col0 = c) as Hcol0 by by inv HZc.
  cbn zeta. unfold array2. cbn [shape]. rewrite HZlen, Hcol0.
  split; [done|]. intros i j Hi Hj.
  unfold get2. cbn [shape data]. rewrite decide_True by done.
  destruct (lookup_lt_is_Some_2 l (j * m + i)) as [x Hx]; [nia|].
  rewrite Hx. apply (join_lookup_Some_same_length' c); [done..|].
  destruct (lookup_lt_is_Some_2 (col0 :: Z) i) as [col Hcol]; [lia|].
  exists col. split; [done|].
  rewrite <- EZ in Hcol.
  apply (zip_star_columns R m) in Hcol as [_ Hcol]; [|done..].
  assert (R !! j = Some (take m (drop (j * m) l))) as Hrow.
  { unfold R. rewrite list_lookup_fmap, lookup_seq_lt by done. done. }
  destruct (Forall2_lookup_l _ _ _ _ _ Hcol Hrow) as (y & Hy & Hget).
  rewrite lookup_take_lt, lookup_drop in Hget by done. congruence.
Qed.

Lemma transposed_blocks_column l c m j :
  0 < m → j < c → length l = c * m →
  column (array2 (zip_star (rows {| shape := [c; m]; data := l |}))) j =
  take m (drop (j * m) l).
Proof.
  intros Hm Hj Hl.
  destruct (transposed_blocks l c m ltac:(lia) Hm Hl) as [Hshape Hget].
  unfold column. rewrite Hshape.
  assert (length (take m (drop (j * m) l)) = m) as Hlen.
  { rewrite length_take, length_drop. nia. }
  rewrite <- Hlen at 1. apply omap_seq_lookup.
  intros i Hi. rewrite Hlen in Hi. cbn.
  rewrite Hget by done. by rewrite lookup_take_lt, lookup_drop.
Qed.

End ArrayFacts.

(** ** The converter *)

Section ConverterFacts.
Context {F : Type}.
Implicit Types (op : Operator F) (dev : option string)
  (cfg : gmap string value) (ca ia la : AttributeProto F).

(** What the converter does once the three attributes are found. *)
Lemma convert_present op dev cfg ca ia la :
  last_attr "coefficients" (attrs_of op) = Some ca →
  last_attr "intercepts" (attrs_of op) = Some ia →
  last_attr "classlabels_ints" (attrs_of op) = Some la →
  convert_onnx_linear_model (Some op) dev cfg =
  let! p := reshape_parameters (array1 (attr_floats ca))
              (array1 (attr_floats ia)) (attr_ints la) in
  inr {| lm_coefficients := p.1; lm_intercepts := p.2; lm_device := dev;
         lm_classes := attr_ints la;
         lm_multi_class :=
           resolve_multi_class
             (multi_class (scan_attributes (attrs_of op))) (attr_ints la);
         lm_is_linear_regression :=
           bool_decide (op_type (raw_operator op) = "LinearRegressor") |}.
Proof.
  intros Hc Hi Hl. unfold convert_onnx_linear_model, attrs_of in *.
  by rewrite scan_coefficients, scan_intercepts, scan_classes, Hc, Hi, Hl.
Qed.

Lemma convert_absent op dev cfg :
  absent "coefficients" (attrs_of op) ∨ absent "intercepts" (attrs_of op)
  ∨ absent "classlabels_ints" (attrs_of op) →
  convert_onnx_linear_model (Some op) dev cfg =
  inl (RuntimeError unexpected_None).
Proof.
  unfold convert_onnx_linear_model, attrs_of.
  rewrite !last_attr_absent.
  rewrite scan_coefficients, scan_intercepts, scan_classes.
  intros [-> | [-> | ->]]; simpl; [done| |].
  - by destruct (last_attr "coefficients" _).
  - by destruct (last_attr "coefficients" _), (last_attr "intercepts" _).
Qed.

Lemma second_half (l : list F) k :
  length l = 2 * k → drop (length l / 2) l = take k (drop k l).
Proof.
  intros Hl. rewrite Hl, Nat.mul_comm, Nat.div_mul by done.
  rewrite take_ge; [done|]. rewrite length_drop. lia.
Qed.

Lemma keep_second_half (l : list F) k :
  length l = 2 * k → 1 ≤ k →
  array2 ((λ val, [val]) <$> iter1 (slice_from (len (array1 l) / 2) (array1 l)))
  = {| shape := [k; 1]; data := take k (drop k l) |}.
Proof.
  intros Hl Hk. unfold iter1, slice_from, len. cbn [array1 shape data hd].
  rewrite (second_half l k Hl).
  assert (length (take k (drop k l)) = k) as Hlen.
  { rewrite length_take, length_drop. lia. }
  rewrite array2_singletons.
  - by rewrite Hlen.
  - intros E. rewrite E in Hlen. simpl in Hlen. lia.
Qed.

Lemma keep_second_half_empty (l : list F) :
  length l = 0 →
  array2 ((λ val, [val]) <$> iter1 (slice_from (len (array1 l) / 2) (array1 l)))
  = {| shape := [0]; data := [] |}.
Proof. by intros ->%nil_length_inv. Qed.

(** C1, as amended: for a binary linear classifier (exactly 2 classes)
    whose coefficient attribute holds [2k] scalars and whose intercept
    attribute holds [2k'] scalars, [convert_onnx_linear_model] returns a
    fragment. For [k >= 1] its coefficient tensor is the second half
    [[k:2k]] of the raw coefficients, one row per value (shape [(k, 1)]);
    for [k = 0] it is the empty array of shape [(0,)]. Likewise for the
    intercepts and [k']. *)
Theorem binary_keeps_second_half op dev cfg ca ia la k k' :
  last_attr "coefficients" (attrs_of op) = Some ca →
  last_attr "intercepts" (attrs_of op) = Some ia →
  last_attr "classlabels_ints" (attrs_of op) = Some la →
  length (attr_ints la) = 2 →
  length (attr_floats ca) = 2 * k →
  length (attr_floats ia) = 2 * k' →
  ∃ frag,
    convert_onnx_linear_model (Some op) dev cfg = inr frag ∧
    (1 ≤ k →
     lm_coefficients frag =
       {| shape := [k; 1]; data := take k (drop k (attr_floats ca)) |} ∧
     rows (lm_coefficients frag) =
       (λ v, [v]) <$> take k (drop k (attr_floats ca))) ∧
    (k = 0 → lm_coefficients frag = {| shape := [0]; data := [] |}) ∧
    (1 ≤ k' →
     lm_intercepts frag =
       {| shape := [k'; 1]; data := take k' (drop k' (attr_floats ia)) |} ∧
     rows (lm_intercepts frag) =
       (λ v, [v]) <$> take k' (drop k' (attr_floats ia))) ∧
    (k' = 0 → lm_intercepts frag = {| shape := [0]; data := [] |}).
Proof.
  intros Hc Hi Hl Hcls Hk Hk'.
  rewrite (convert_present op dev cfg ca ia la Hc Hi Hl).
  unfold reshape_parameters. rewrite decide_True by done. cbn [rbind].
  eexists. split; [reflexivity|]. cbn [lm_coefficients lm_intercepts fst snd].
  assert (∀ (l : list F) n, length l = 2 * n →
            length (take n (drop n l)) = n) as Hlen.
  { intros l n E. rewrite length_take, length_drop. lia. }
  split_and!.
  - intros Hk1. rewrite (keep_second_half _ k Hk Hk1). split; [done|].
    rewrite <- (Hlen _ _ Hk) at 1. apply rows_singletons.
  - intros ->. by apply keep_second_half_empty.
  - intros Hk1. rewrite (keep_second_half _ k' Hk' Hk1). split; [done|].
    rewrite <- (Hlen _ _ Hk') at 1. apply rows_singletons.
  - intros ->. by apply keep_second_half_empty.
Qed.

(** C2, as amended: for a linear classifier with [c > 2] classes and
    [c * m] raw coefficients, [convert_onnx_linear_model] returns a
    fragment and leaves the intercepts as they are. For [m >= 1] the
    coefficient tensor has shape [(m, c)] and its column [j] is the block
    [[j*m : (j+1)*m]] of the raw coefficients, that is, its entry [(i, j)]
    is raw coefficient [j*m + i]; for [m = 0] it is the empty array of
    shape [(0,)]. *)
Theorem multiclass_transposes_blocks op dev cfg ca ia la m :
  last_attr "coefficients" (attrs_of op) = Some ca →
  last_attr "intercepts" (attrs_of op) = Some ia →
  last_attr "classlabels_ints" (attrs_of op) = Some la →
  2 < length (attr_ints la) →
  length (attr_floats ca) = length (attr_ints la) * m →
  ∃ frag,
    convert_onnx_linear_model (Some op) dev cfg = inr frag ∧
    lm_intercepts frag = array1 (attr_floats ia) ∧
    (1 ≤ m →
     shape (lm_coefficients frag) = [m; length (attr_ints la)] ∧
     (∀ j, j < length (attr_ints la) →
        column (lm_coefficients frag) j =
        take m (drop (j * m) (attr_floats ca))) ∧
     (∀ i j, i < m → j < length (attr_ints la) →
        get2 (lm_coefficients frag) i j = attr_floats ca !! (j * m + i))) ∧
    (m = 0 → lm_coefficients frag = {| shape := [0]; data := [] |}).
Proof.
  intros Hc Hi Hl Hcls Hlen. set (c := length (attr_ints la)) in *.
  rewrite (convert_present op dev cfg ca ia la Hc Hi Hl).
  unfold reshape_parameters. fold c.
  rewrite decide_False by lia. rewrite decide_True by done.
  unfold reshape, len. cbn [array1 shape data hd].
  assert (length (attr_floats ca) / c = m) as ->.
  { rewrite Hlen, Nat.mul_comm. apply Nat.div_mul. lia. }
  rewrite decide_True by done. cbn [rbind].
  eexists. split; [reflexivity|]. cbn [lm_coefficients lm_intercepts fst snd].
  split_and!; [done| |].
  - intros Hm.
    destruct (transposed_blocks (attr_floats ca) c m ltac:(lia) ltac:(lia)
                Hlen) as [Hshape Hget].
    split_and!; try done.
    intros j Hj. apply transposed_blocks_column; lia || done.
  - intros ->. rewrite rows_blocks.
    destruct c as [|c']; [lia|]. done.
Qed.

(** C3: an operator that has the three parameter attributes, and either
    exactly two classes or more than two and a number of coefficients that
    the number of classes divides, is converted to a fragment, and the
    multi-class mode of that fragment is ["multinomial"] whenever some
    [multi_class] attribute is present and non-zero, whatever the number of
    classes; otherwise it is ["none"] for fewer than 3 classes and
    ["ovr"] for 3 or more. *)
Theorem multi_class_mode_resolution op dev cfg ca ia la :
  last_attr "coefficients" (attrs_of op) = Some ca →
  last_attr "intercepts" (attrs_of op) = Some ia →
  last_attr "classlabels_ints" (attrs_of op) = Some la →
  length (attr_ints la) = 2
  ∨ (2 < length (attr_ints la)
     ∧ length (attr_floats ca) `mod` length (attr_ints la) = 0) →
  ∃ frag,
    convert_onnx_linear_model (Some op) dev cfg = inr frag ∧
    lm_classes frag = attr_ints la ∧
    lm_multi_class frag =
      if decide (explicit_multi_class (attrs_of op)) then "multinomial"
      else if decide (length (attr_ints la) < 3) then "none"
      else "ovr".
Proof.
  intros Hc Hi Hl Hcase.
  rewrite (convert_present op dev cfg ca ia la Hc Hi Hl).
  assert (∃ p, reshape_parameters (array1 (attr_floats ca))
                 (array1 (attr_floats ia)) (attr_ints la) = inr p)
    as [p ->].
  { unfold reshape_parameters. destruct Hcase as [H2|[Hgt Hmod]].
    - rewrite decide_True by done. by eexists.
    - rewrite decide_False by lia. rewrite decide_True by done.
      unfold reshape, len. cbn [array1 shape data hd].
      rewrite decide_True; [by eexists|].
      apply Nat.Div0.div_exact in Hmod. lia. }
  cbn [rbind]. eexists. split; [reflexivity|]. cbn.
  split; [done|]. rewrite scan_multi_class. unfold resolve_multi_class.
  by destruct (decide (explicit_multi_class _)).
Qed.

(** C5: when at least one of the coefficients, intercepts or classes
    attributes is absent from the attribute list, the converter raises the
    RuntimeError of a malformed operator and returns no fragment. *)
Theorem missing_attribute_raises op dev cfg :
  absent "coefficients" (attrs_of op) ∨ absent "intercepts" (attrs_of op)
  ∨ absent "classlabels_ints" (attrs_of op) →
  convert_onnx_linear_model (Some op) dev cfg =
    inl (RuntimeError "Error parsing LinearClassifier, found unexpected None")
  ∧ ¬ ∃ frag, convert_onnx_linear_model (Some op) dev cfg = inr frag.
Proof.
  intros H. rewrite (convert_absent op dev cfg H).
  split; [done|]. by intros [frag ?].
Qed.

(** C6: when the classes attribute holds fewer than 2 labels, the converter
    raises a RuntimeError and returns no fragment; with coefficients and
    intercepts present it is the error on the number of classes. *)
Theorem too_few_classes_raises op dev cfg la :
  last_attr "classlabels_ints" (attrs_of op) = Some la →
  length (attr_ints la) < 2 →
  (∃ msg, convert_onnx_linear_model (Some op) dev cfg
          = inl (RuntimeError msg)) ∧
  (¬ ∃ frag, convert_onnx_linear_model (Some op) dev cfg = inr frag) ∧
  (is_Some (last_attr "coefficients" (attrs_of op)) →
   is_Some (last_attr "intercepts" (attrs_of op)) →
   convert_onnx_linear_model (Some op) dev cfg =
   inl (RuntimeError
     "Error parsing LinearClassifier, length of classes {} unexpected:{}")).
Proof.
  intros Hl Hn.
  destruct (last_attr "coefficients" (attrs_of op)) as [ca|] eqn:Hc.
  2:{ rewrite convert_absent by (left; by apply last_attr_absent).
      split_and!; [by eexists|by intros [? ?]|by intros [? ?]]. }
  destruct (last_attr "intercepts" (attrs_of op)) as [ia|] eqn:Hi.
  2:{ rewrite convert_absent by (right; left; by apply last_attr_absent).
      split_and!; [by eexists|by intros [? ?]|by intros _ [? ?]]. }
  rewrite (convert_present op dev cfg ca ia la Hc Hi Hl).
  unfold reshape_parameters.
  rewrite decide_False by lia. rewrite decide_False by lia. cbn.
  split_and!; [by eexists|by intros [? ?]|done].
Qed.

(** C10: class labels are read from [classlabels_ints] alone. For an
    operator that has no attribute of that name, whatever labels it carries
    under other names, [classes] is still unset after the attribute loop and
    the converter raises the missing-attribute RuntimeError. *)
Theorem labels_only_from_classlabels_ints op dev cfg :
  absent "classlabels_ints" (attrs_of op) →
  classes (scan_attributes (attrs_of op)) = None ∧
  convert_onnx_linear_model (Some op) dev cfg =
    inl (RuntimeError "Error parsing LinearClassifier, found unexpected None").
Proof.
  intros H. split.
  - rewrite scan_classes. apply last_attr_absent in H. by rewrite H.
  - apply convert_absent. by right; right.
Qed.

End ConverterFacts.

(** ** The scenarios of the specification *)

(** Scenario A: coefficients [[1,2,-1,-2]], intercepts [[0.5,-0.5]] and
    classes [[0,1]] give coefficients [[[-1],[-2]]] and intercepts
    [[[-0.5]]]. *)
Lemma binary_keeps_second_half_scenario_A :
  ∃ frag,
    convert_onnx_linear_model (Some scenario_A) None ∅ = inr frag ∧
    lm_coefficients frag =
      {| shape := [2; 1]; data := [(-1)%Q; (-2)%Q] |} ∧
    rows (lm_coefficients frag) = [[(-1)%Q]; [(-2)%Q]] ∧
    lm_intercepts frag = {| shape := [1; 1]; data := [(-1 # 2)%Q] |} ∧
    rows (lm_intercepts frag) = [[(-1 # 2)%Q]].
Proof.
  destruct (binary_keeps_second_half scenario_A None ∅
              (floats_attr "coefficients" [1%Q; 2%Q; (-1)%Q; (-2)%Q])
              (floats_attr "intercepts" [(1 # 2)%Q; (-1 # 2)%Q])
              (ints_attr "classlabels_ints" [0%Z; 1%Z]) 2 1
              eq_refl eq_refl eq_refl eq_refl eq_refl eq_refl)
    as (frag & Hfrag & Hcoef & _ & Hint & _).
  destruct (Hcoef ltac:(lia)) as [Hc Hcrows].
  destruct (Hint ltac:(lia)) as [Hi Hirows].
  exists frag. split_and!; assumption.
Defined.

(** A binary classifier with empty parameter lists ([k = 0]) gets the
    one-dimensional empty array, not an array of shape [(0, 1)]. *)
Lemma binary_no_feature_is_flat :
  length [0%Z; 1%Z] = 2 ∧ length (@nil Q) = 2 * 0 ∧
  last_attr "coefficients" (attrs_of binary_no_feature)
    = Some (floats_attr "coefficients" []) ∧
  last_attr "classlabels_ints" (attrs_of binary_no_feature)
    = Some (ints_attr "classlabels_ints" [0%Z; 1%Z]) ∧
  (∃ frag,
     convert_onnx_linear_model (Some binary_no_feature) None ∅ = inr frag ∧
     lm_coefficients frag = {| shape := [0]; data := [] |}) ∧
  ¬ ∃ frag,
      convert_onnx_linear_model (Some binary_no_feature) None ∅ = inr frag ∧
      lm_coefficients frag =
        {| shape := [0; 1]; data := take 0 (drop 0 (@nil Q)) |}.
Proof.
  split_and!; try reflexivity.
  - eexists. split; reflexivity.
  - intros (frag & H & Hs). vm_compute in H. injection H as <-.
    discriminate Hs.
Qed.

(** Scenario B: three classes and nine coefficients give a tensor of shape
    [(3, 3)] whose columns are the three blocks. *)
Lemma multiclass_transposes_blocks_scenario_B :
  ∃ frag,
    convert_onnx_linear_model (Some scenario_B) None ∅ = inr frag ∧
    lm_intercepts frag = array1 [(1 # 2)%Q; 0%Q; (-1 # 2)%Q] ∧
    shape (lm_coefficients frag) = [3; 3] ∧
    (∀ j, j < 3 →
       column (lm_coefficients frag) j =
       take 3 (drop (j * 3)
                 [1%Q; 2%Q; 3%Q; 4%Q; 5%Q; 6%Q; 7%Q; 8%Q; 9%Q])) ∧
    (∀ i j, i < 3 → j < 3 →
       get2 (lm_coefficients frag) i j =
       [1%Q; 2%Q; 3%Q; 4%Q; 5%Q; 6%Q; 7%Q; 8%Q; 9%Q] !! (j * 3 + i)).
Proof.
  destruct (multiclass_transposes_blocks scenario_B None ∅
              (floats_attr "coefficients"
                 [1%Q; 2%Q; 3%Q; 4%Q; 5%Q; 6%Q; 7%Q; 8%Q; 9%Q])
              (floats_attr "intercepts" [(1 # 2)%Q; 0%Q; (-1 # 2)%Q])
              (ints_attr "classlabels_ints" [0%Z; 1%Z; 2%Z]) 3
              eq_refl eq_refl eq_refl ltac:(simpl; lia) eq_refl)
    as (frag & Hfrag & Hint & Hcoef & _).
  destruct (Hcoef ltac:(lia)) as (Hshape & Hcol & Hget).
  exists frag. split_and!; assumption.
Defined.

(** Three classes with an empty coefficient list ([m = 0]): the coefficient
    tensor is the one-dimensional empty array, not one of shape [(0, 3)]. *)
Lemma three_classes_no_feature_is_flat :
  2 < length [0%Z; 1%Z; 2%Z] ∧ length (@nil Q) = 3 * 0 ∧
  last_attr "coefficients" (attrs_of three_classes_no_feature)
    = Some (floats_attr "coefficients" []) ∧
  last_attr "classlabels_ints" (attrs_of three_classes_no_feature)
    = Some (ints_attr "classlabels_ints" [0%Z; 1%Z; 2%Z]) ∧
  (∃ frag,
     convert_onnx_linear_model (Some three_classes_no_feature) None ∅
       = inr frag ∧
     shape (lm_coefficients frag) = [0]) ∧
  ¬ ∃ frag,
      convert_onnx_linear_model (Some three_classes_no_feature) None ∅
        = inr frag ∧
      shape (lm_coefficients frag) = [0; 3].
Proof.
  split_and!; try reflexivity.
  - simpl. lia.
  - eexists. split; reflexivity.
  - intros (frag & H & Hs). vm_compute in H. injection H as <-.
    discriminate Hs.
Qed.

(** The four cases: flagged with three and with two classes, and not
    flagged with two (scenario A) and with three classes (scenario B). *)
Lemma multi_class_mode_resolution_witness :
  (∃ frag,
     convert_onnx_linear_model (Some scenario_multinomial) None ∅ = inr frag
     ∧ lm_multi_class frag = "multinomial") ∧
  (∃ frag,
     convert_onnx_linear_model (Some binary_multinomial) None ∅ = inr frag
     ∧ lm_multi_class frag = "multinomial") ∧
  (∃ frag,
     convert_onnx_linear_model (Some scenario_A) None ∅ = inr frag
     ∧ lm_multi_class frag = "none") ∧
  (∃ frag,
     convert_onnx_linear_model (Some scenario_B) None ∅ = inr frag
     ∧ lm_multi_class frag = "ovr").
Proof.
  split_and!.
  - destruct (multi_class_mode_resolution scenario_multinomial None ∅
                (floats_attr "coefficients" [1%Q; 2%Q; 3%Q])
                (floats_attr "intercepts" [0%Q; 0%Q; 0%Q])
                (ints_attr "classlabels_ints" [0%Z; 1%Z; 2%Z])
                eq_refl eq_refl eq_refl)
      as (frag & Hfrag & _ & Hmode);
      [right; split; [simpl; lia|reflexivity]|].
    exists frag. split; [exact Hfrag|exact Hmode].
  - destruct (multi_class_mode_resolution binary_multinomial None ∅
                (floats_attr "coefficients" [1%Q; 2%Q; (-1)%Q; (-2)%Q])
                (floats_attr "intercepts" [(1 # 2)%Q; (-1 # 2)%Q])
                (ints_attr "classlabels_ints" [0%Z; 1%Z])
                eq_refl eq_refl eq_refl (or_introl eq_refl))
      as (frag & Hfrag & _ & Hmode).
    exists frag. split; [exact Hfrag|exact Hmode].
  - destruct (multi_class_mode_resolution scenario_A None ∅
                (floats_attr "coefficients" [1%Q; 2%Q; (-1)%Q; (-2)%Q])
                (floats_attr "intercepts" [(1 # 2)%Q; (-1 # 2)%Q])
                (ints_attr "classlabels_ints" [0%Z; 1%Z])
                eq_refl eq_refl eq_refl (or_introl eq_refl))
      as (frag & Hfrag & _ & Hmode).
    exists frag. split; [exact Hfrag|exact Hmode].
  - destruct (multi_class_mode_resolution scenario_B None ∅
                (floats_attr "coefficients"
                   [1%Q; 2%Q; 3%Q; 4%Q; 5%Q; 6%Q; 7%Q; 8%Q; 9%Q])
                (floats_attr "intercepts" [(1 # 2)%Q; 0%Q; (-1 # 2)%Q])
                (ints_attr "classlabels_ints" [0%Z; 1%Z; 2%Z])
                eq_refl eq_refl eq_refl)
      as (frag & Hfrag & _ & Hmode);
      [right; split; [simpl; lia|reflexivity]|].
    exists frag. split; [exact Hfrag|exact Hmode].
Defined.

Lemma missing_attribute_raises_witness :
  convert_onnx_linear_model (Some missing_intercepts) None ∅ =
    inl (RuntimeError "Error parsing LinearClassifier, found unexpected None")
  ∧ ¬ ∃ frag,
        convert_onnx_linear_model (Some missing_intercepts) None ∅ = inr frag.
Proof.
  apply (missing_attribute_raises missing_intercepts None ∅).
  right. left. intros a Ha.
  repeat (apply elem_of_cons in Ha as [-> | Ha]; [discriminate|]).
  by apply elem_of_nil in Ha.
Defined.

Lemma too_few_classes_raises_witness :
  (∃ msg, convert_onnx_linear_model (Some one_class) None ∅
          = inl (RuntimeError msg)) ∧
  (¬ ∃ frag, convert_onnx_linear_model (Some one_class) None ∅ = inr frag) ∧
  (is_Some (last_attr "coefficients" (attrs_of one_class)) →
   is_Some (last_attr "intercepts" (attrs_of one_class)) →
   convert_onnx_linear_model (Some one_class) None ∅ =
   inl (RuntimeError
     "Error parsing LinearClassifier, length of classes {} unexpected:{}")).
Proof.
  apply (too_few_classes_raises one_class None ∅
           (ints_attr "classlabels_ints" [0%Z])).
  - reflexivity.
  - simpl. lia.
Defined.

Lemma labels_only_from_classlabels_ints_witness :
  classes (scan_attributes (attrs_of string_labels)) = None ∧
  convert_onnx_linear_model (Some string_labels) None ∅ =
    inl (RuntimeError "Error parsing LinearClassifier, found unexpected None").
Proof.
  apply (labels_only_from_classlabels_ints string_labels None ∅).
  intros a Ha.
  repeat (apply elem_of_cons in Ha as [-> | Ha]; [discriminate|]).
  by apply elem_of_nil in Ha.
Defined.

End LinearFacts.

(** * Properties of the entry points *)

Module ConvertFacts.
Import Convert ConvertSpec.

(** ** The primitives and the caller's configuration *)

Section Frame.
Context {A B : Type}.

Lemma keeps_ret (a : A) : keeps_config (ret a).
Proof. by intros s. Qed.

Lemma keeps_throw (e : exn) : keeps_config (throw (A := A) e).
Proof. by intros s. Qed.

Lemma keeps_assert cond msg : keeps_config (assert cond msg).
Proof. by destruct cond; intros s. Qed.

Lemma keeps_the_config : keeps_config the_config.
Proof. by intros s. Qed.

Lemma keeps_contains key : keeps_config (contains key).
Proof. by intros s. Qed.

Lemma keeps_external c (r : result A) : keeps_config (external c r).
Proof. by intros s. Qed.

Lemma keeps_lift (r : result A) : keeps_config (lift r).
Proof. by intros s. Qed.

Lemma keeps_getitem (l : list A) i : keeps_config (getitem l i).
Proof. unfold getitem. by destruct (l !! i); intros s. Qed.

Lemma keeps_bind (m : M A) (k : A → M B) :
  keeps_config m → (∀ a, keeps_config (k a)) → keeps_config (bind m k).
Proof.
  intros Hm Hk s. unfold bind. specialize (Hm s).
  destruct (m s) as [s' [e|a]]; simpl in *; [done|].
  by rewrite Hk.
Qed.

End Frame.

Create HintDb frame.
#[local] Hint Resolve keeps_ret keeps_throw keeps_assert keeps_the_config
  keeps_contains keeps_external keeps_getitem keeps_lift : frame.

Ltac frame :=
  repeat first
    [ apply keeps_bind; [|intros ?]
    | progress auto with frame
    | match goal with
      | |- keeps_config (match ?x with _ => _ end) => destruct x
      end ].

Section EntryPointFacts.
Context {Model Topology HbModel : Type}.
Context {Node Init IR OnnxModel : Type}.
Variable env : installed.
Variable _features_count : Model → option value.
Variable parse_sklearn_api_model : Model → result Topology.
Variable topology_converter : Topology → gmap string value → result HbModel.
Variable linked_node_converter :
  IR → list ValueInfoProto → list Init → list string → pyobj →
  gmap string value → result OnnxModel.
Variable build_from_onnx :
  list Node → list string → list string → list string → list Init → result IR.
Variable backend_map : gset string.

Local Abbreviation sklearn :=
  (convert_sklearn env parse_sklearn_api_model topology_converter).
Local Abbreviation lightgbm :=
  (convert_lightgbm env parse_sklearn_api_model topology_converter).
Local Abbreviation xgboost :=
  (convert_xgboost env _features_count parse_sklearn_api_model
     topology_converter).
Local Abbreviation onnxml :=
  (convert_onnxml env linked_node_converter build_from_onnx).

Lemma convert_sklearn_keeps_config model test_input :
  keeps_config (sklearn model test_input).
Proof. unfold convert_sklearn. frame. Qed.

Lemma convert_lightgbm_keeps_config model test_input :
  keeps_config (lightgbm model test_input).
Proof.
  unfold convert_lightgbm. frame. apply convert_sklearn_keeps_config.
Qed.

Lemma supported_backend_check_keeps_config backend :
  keeps_config (_supported_backend_check backend_map backend).
Proof. unfold _supported_backend_check. frame. Qed.

Lemma synthesize_keeps_config initial_types :
  keeps_config (synthesize_test_data initial_types).
Proof. unfold synthesize_test_data. frame. Qed.

Lemma convert_onnxml_keeps_config
    model output_model_name initial_types input_names output_names
    test_data target_opset :
  keeps_config (onnxml model output_model_name initial_types input_names
                  output_names test_data target_opset).
Proof.
  unfold convert_onnxml. frame. apply synthesize_keeps_config.
Qed.

(** What [convert_xgboost] does to the state before it hands over to
    [convert_sklearn]. *)
Lemma convert_xgboost_unfold model test_input s :
  xgboost_installed env = true →
  xgboost model test_input s =
  match extra_config s !! N_FEATURES with
  | Some _ => sklearn model test_input s
  | None =>
      match model ≫= _features_count with
      | Some n =>
          sklearn model test_input
            (with_config s (<[N_FEATURES := n]> (extra_config s)))
      | None =>
          match test_input with
          | Some (PyNdarray _ [_; columns]) =>
              sklearn model test_input
                (with_config s
                   (<[N_FEATURES := VInt (Z.of_nat columns)]> (extra_config s)))
          | Some _ => (s, inl (RuntimeError not_an_ndarray))
          | None => (s, inl (RuntimeError no_test_input))
          end
      end
  end.
Proof.
  intros Henv. unfold convert_xgboost, bind, assert, contains.
  rewrite Henv. cbn.
  destruct (extra_config s !! N_FEATURES) as [v|] eqn:E; cbn; [done|].
  destruct (model ≫= _features_count) as [n|]; [done|].
  destruct test_input as [[dt [|r [|c [|? ?]]]|t]|]; done.
Qed.

Lemma convert_xgboost_config model test_input s :
  extra_config (xgboost model test_input s).1 =
  config_after_xgboost env (extra_config s) (model ≫= _features_count)
    test_input.
Proof.
  unfold config_after_xgboost.
  destruct (xgboost_installed env) eqn:Henv.
  2:{ unfold convert_xgboost, bind, assert. by rewrite Henv. }
  rewrite convert_xgboost_unfold by done. unfold infer_n_features.
  destruct (extra_config s !! N_FEATURES) as [v|] eqn:E.
  { rewrite convert_sklearn_keeps_config. by rewrite insert_id. }
  destruct (model ≫= _features_count) as [n|].
  { by rewrite convert_sklearn_keeps_config. }
  destruct test_input as [[dt [|r [|c [|? ?]]]|t]|]; try done.
  by rewrite convert_sklearn_keeps_config.
Qed.

(** C4, as amended: after a call of [convert_sklearn], [convert_lightgbm]
    or [convert_onnxml], or of the methods [_to_sklearn] and
    [_to_lightgbm], returning or raising, the caller's [extra_config] holds
    exactly the pairs it held before. After a call of [convert_xgboost],
    or of [_to_xgboost] with a supported backend, it holds those pairs and,
    when [n_features] was absent, the XGBoost runtime is installed and a
    feature count could be inferred from the model or from a
    two-dimensional [test_input], the pair of [n_features] and that
    count. *)
Theorem extra_config_after_call
    model test_input backend graph output_model_name initial_types
    input_names output_names test_data target_opset s :
  extra_config (sklearn model test_input s).1 = extra_config s ∧
  extra_config (lightgbm model test_input s).1 = extra_config s ∧
  extra_config (onnxml graph output_model_name initial_types input_names
                  output_names test_data target_opset s).1 = extra_config s ∧
  extra_config
    (_to_sklearn env parse_sklearn_api_model topology_converter backend_map
       model backend test_input s).1 = extra_config s ∧
  extra_config
    (_to_lightgbm env parse_sklearn_api_model topology_converter backend_map
       model backend test_input s).1 = extra_config s ∧
  extra_config (xgboost model test_input s).1 =
    (if xgboost_installed env then
       match infer_n_features (extra_config s) (model ≫= _features_count)
               test_input with
       | Some n => <[N_FEATURES := n]> (extra_config s)
       | None => extra_config s
       end
     else extra_config s) ∧
  extra_config
    (_to_xgboost env _features_count parse_sklearn_api_model
       topology_converter backend_map model backend test_input s).1 =
    (if bool_decide (lower backend ∈ backend_map) then
       config_after_xgboost env (extra_config s) (model ≫= _features_count)
         test_input
     else extra_config s).
Proof.
  split_and!.
  - apply convert_sklearn_keeps_config.
  - apply convert_lightgbm_keeps_config.
  - apply convert_onnxml_keeps_config.
  - unfold _to_sklearn. apply keeps_bind.
    + apply supported_backend_check_keeps_config.
    + intros _. apply convert_sklearn_keeps_config.
  - unfold _to_lightgbm. apply keeps_bind.
    + apply supported_backend_check_keeps_config.
    + intros _. apply convert_lightgbm_keeps_config.
  - apply convert_xgboost_config.
  - unfold _to_xgboost, _supported_backend_check, bind.
    destruct (bool_decide (lower backend ∈ backend_map)); cbn; [|done].
    apply convert_xgboost_config.
Qed.

(** C7: a call of [convert_xgboost] whose [extra_config] has no
    [n_features], whose model reports no feature count and whose
    [test_input] is absent or not a two-dimensional array fails before
    anything is parsed or converted, and with the XGBoost runtime installed
    it fails with the error on a feature count that cannot be inferred.
    When one of the three sources is available (and the runtime installed),
    the count is taken from the first available among the configuration,
    the model and the test input, it is recorded under [n_features], and
    [convert_sklearn] runs on that configuration. *)
Theorem feature_count_inference model test_input s :
  (extra_config s !! N_FEATURES = None →
   model ≫= _features_count = None →
   two_dimensional test_input = None →
   (xgboost model test_input s).1 = s ∧
   failed (xgboost model test_input s).2 ∧
   (xgboost_installed env = true →
    (∃ msg, xgboost model test_input s = (s, inl (RuntimeError msg)) ∧
            (msg = not_an_ndarray ∨ msg = no_test_input)) ∧
    (test_input = None →
     xgboost model test_input s = (s, inl (RuntimeError no_test_input)))))
  ∧
  (xgboost_installed env = true →
   ∀ n,
     infer_n_features (extra_config s) (model ≫= _features_count) test_input
       = Some n →
     xgboost model test_input s =
       sklearn model test_input
         (with_config s (<[N_FEATURES := n]> (extra_config s))) ∧
     extra_config (xgboost model test_input s).1 !! N_FEATURES = Some n).
Proof.
  split.
  - intros Hcfg Hmodel Hinput.
    destruct (xgboost_installed env) eqn:Henv.
    2:{ unfold convert_xgboost, bind, assert. rewrite Henv. done. }
    rewrite convert_xgboost_unfold, Hcfg, Hmodel by done.
    destruct test_input as [[dt [|r [|c [|? ?]]]|t]|]; try done;
      (split_and!; [done..|]; intros _;
       split; [eexists; split; [reflexivity|auto]|done]).
  - intros Henv n Hn.
    assert (xgboost model test_input s =
            sklearn model test_input
              (with_config s (<[N_FEATURES := n]> (extra_config s)))) as ->.
    { rewrite convert_xgboost_unfold by done.
      unfold infer_n_features in Hn.
      destruct (extra_config s !! N_FEATURES) as [v|] eqn:E.
      { simplify_eq. rewrite insert_id by done. by destruct s. }
      destruct (model ≫= _features_count) as [v|]; [by simplify_eq|].
      destruct test_input as [[dt [|r [|c [|? ?]]]|t]|]; by simplify_eq/=. }
    split; [done|].
    rewrite convert_sklearn_keeps_config. cbn. apply lookup_insert_eq.
Qed.

(** C8: the input names of a call of [convert_onnxml] must resolve to
    exactly one input of the model. A call in which they resolve to two or
    more inputs (or to none) raises an assertion error, and has by then
    neither built the IR nor converted anything; with two or more inputs,
    when the checks on the runtimes and on the test data pass, it is the
    error on models with more than one input. *)
Theorem more_than_one_input_raises
    graph output_model_name initial_types input_names output_names
    test_data target_opset s :
  length (resolve_inputs graph input_names) ≠ 1 →
  (∃ msg,
     onnxml (Some graph) output_model_name initial_types input_names
       output_names test_data target_opset s
     = (s, inl (AssertionError msg))) ∧
  (2 ≤ length (resolve_inputs graph input_names) →
   torch_installed env = true → onnx_installed env = true →
   is_Some test_data ∨ is_Some initial_types →
   onnxml (Some graph) output_model_name initial_types input_names
     output_names test_data target_opset s
   = (s, inl (AssertionError more_than_one_input))).
Proof.
  intros Hlen. unfold convert_onnxml, bind, assert.
  destruct (torch_installed env); [|split; [by eexists|done]].
  destruct (onnx_installed env); [|split; [by eexists|done]].
  cbn.
  destruct (bool_decide (is_Some test_data ∨ is_Some initial_types)) eqn:E;
    cbn.
  2:{ split; [by eexists|]. intros _ _ _ H.
      by rewrite bool_decide_eq_true_2 in E. }
  destruct (decide (0 < length (resolve_inputs graph input_names))) as [H0|H0].
  - rewrite (bool_decide_eq_true_2 _ H0). cbn.
    rewrite (bool_decide_eq_false_2 _ Hlen). cbn.
    split; [by eexists|done].
  - rewrite (bool_decide_eq_false_2 _ H0). cbn.
    split; [by eexists|]. intros; lia.
Qed.


(** What [convert_onnxml] comes to, check by check. *)
Lemma convert_onnxml_cases
    graph output_model_name initial_types input_names output_names
    test_data target_opset s :
  let inputs := resolve_inputs graph input_names in
  let outs := default (default_output_names graph) output_names in
  onnxml (Some graph) output_model_name initial_types input_names
    output_names test_data target_opset s =
  if torch_installed env then
  if onnx_installed env then
  if bool_decide (is_Some test_data ∨ is_Some initial_types) then
  if bool_decide (0 < length inputs) then
  if bool_decide (length inputs = 1) then
  if match initial_types with
     | None => true
     | Some ts => bool_decide (length ts = 1)
     end then
    match match test_data with
          | Some d => ret d
          | None => synthesize_test_data initial_types
          end s with
    | (s1, inl e) => (s1, inl e)
    | (s1, inr d) =>
        match build_from_onnx (node graph) [] (vi_name <$> input graph) outs
                (initializer graph) with
        | inl e => (after_calls s1 [BuildFromOnnx], inl e)
        | inr ir =>
            (after_calls s1 [BuildFromOnnx; LinkedNodeConverter],
             linked_node_converter ir inputs (initializer graph) outs d
               (extra_config s1))
        end
    end
  else (s, inl (AssertionError
                  "len(initial_types) {} differs from len(inputs) {}."))
  else (s, inl (AssertionError more_than_one_input))
  else (s, inl (AssertionError
                  "Provided input name does not match with any model's input."))
  else (s, inl (AssertionError
                  "Cannot generate test input data. Either pass some input data or the initial_types"))
  else (s, inl (AssertionError
                  "To use the onnxml converter you need to install onnx and onnxruntime."))
  else (s, inl (AssertionError
                  "To use Hummingbird you need to install torch.")).
Proof.
  intros inputs outs. subst inputs outs.
  unfold convert_onnxml, assert, default_output_names.
  destruct (torch_installed env); [|done].
  destruct (onnx_installed env); [|done].
  unfold bind at 1 2 3. cbn [ret].
  destruct (bool_decide (is_Some test_data ∨ is_Some initial_types)); [|done].
  cbn [ret throw]. unfold bind at 1.
  destruct (bool_decide (0 < _)); [|done].
  cbn [ret throw]. unfold bind at 1.
  destruct (bool_decide (_ = 1)); [|done].
  cbn [ret throw]. unfold bind at 1.
  destruct (match initial_types with None => _ | Some _ => _ end); [|done].
  cbn [ret throw]. unfold bind at 1.
  assert (∀ s1 d,
    (let output_names :=
       match output_names with
       | Some names => names
       | None =>
           match output graph with
           | None => []
           | Some outs => vi_name <$> outs
           end
       end in
     do onnx_ir <-
       external BuildFromOnnx
         (build_from_onnx (node graph) [] (vi_name <$> input graph)
            output_names (initializer graph));
     do cfg <- the_config;
     do onnx_model <-
       external LinkedNodeConverter
         (linked_node_converter onnx_ir (resolve_inputs graph input_names)
            (initializer graph) output_names d cfg);
     ret onnx_model) s1 =
    match build_from_onnx (node graph) [] (vi_name <$> input graph)
            (default
               match output graph with
               | None => []
               | Some outs => vi_name <$> outs
               end output_names)
            (initializer graph) with
    | inl e => (after_calls s1 [BuildFromOnnx], inl e)
    | inr ir =>
        (after_calls s1 [BuildFromOnnx; LinkedNodeConverter],
         linked_node_converter ir (resolve_inputs graph input_names)
           (initializer graph)
           (default
              match output graph with
              | None => []
              | Some outs => vi_name <$> outs
              end output_names) d (extra_config s1))
    end) as Htail.
  { intros s1 d. unfold bind, external, the_config, ret, after_calls. cbn.
    destruct output_names as [names|]; cbn;
      (destruct (build_from_onnx _ _ _ _ _) as [e|ir]; [done|]);
      cbn; rewrite <- app_assoc; cbn;
      by destruct (linked_node_converter _ _ _ _ _ _). }
  destruct test_data as [d|].
  - cbn [ret]. apply Htail.
  - destruct (synthesize_test_data initial_types s) as [s1 [e|d]]; [done|].
    apply Htail.
Qed.


End EntryPointFacts.

(** ** The scenarios of the specification *)

(** A model that reports 200 features, converted with an empty
    configuration: the caller's dictionary has gained [n_features]. *)
Lemma xgboost_writes_n_features :
  let before := start ∅ in
  let after := (toy_xgboost (Some (Some 200%Z)) None before).1 in
  extra_config before !! "n_features" = None ∧
  extra_config after !! "n_features" = Some (VInt 200) ∧
  extra_config after ≠ extra_config before.
Proof.
  split_and!; [reflexivity..|].
  intros E. apply (f_equal (λ m, m !! "n_features")) in E.
  vm_compute in E. discriminate E.
Qed.

(** Scenario C, and a test input with seven columns. *)
Lemma feature_count_inference_witness :
  toy_xgboost (Some None) None (start ∅)
    = (start ∅, inl (RuntimeError no_test_input)) ∧
  (∃ msg,
     toy_xgboost (Some None) (Some (PyOther "list")) (start ∅)
       = (start ∅, inl (RuntimeError msg)) ∧
     (msg = not_an_ndarray ∨ msg = no_test_input)) ∧
  extra_config
    (toy_xgboost (Some None) (Some (PyNdarray float64 [5; 7])) (start ∅)).1
    !! N_FEATURES = Some (VInt 7).
Proof.
  split_and!.
  - apply (feature_count_inference all_installed toy_features_count
             toy_parse toy_topology_converter (Some None) None (start ∅));
      reflexivity.
  - apply (feature_count_inference all_installed toy_features_count
             toy_parse toy_topology_converter (Some None)
             (Some (PyOther "list")) (start ∅)); reflexivity.
  - apply (feature_count_inference all_installed toy_features_count
             toy_parse toy_topology_converter (Some None)
             (Some (PyNdarray float64 [5; 7])) (start ∅)); reflexivity.
Defined.

(** Scenario D. *)
Lemma more_than_one_input_raises_witness :
  toy_onnxml (Some two_inputs) None (Some [("X", float_1_20)]) None None None
    9 (start ∅)
  = (start ∅, inl (AssertionError more_than_one_input)).
Proof.
  apply (more_than_one_input_raises all_installed toy_linked_node_converter
           toy_build two_inputs None (Some [("X", float_1_20)]) None None
           None 9 (start ∅)).
  - vm_compute. lia.
  - vm_compute. lia.
  - reflexivity.
  - reflexivity.
  - right. by eexists.
Defined.



End ConvertFacts.

(** * Further properties of the linear converter *)

Module LinearExtra.
Import Np OnnxmlLinear LinearSpec LinearFacts MoreExamples.

Section Loop.
Context {F : Type}.
Implicit Types (attrs : list (AttributeProto F)) (a : AttributeProto F)
  (op : Operator F) (dev : option string) (cfg : gmap string value).

(** X1: the attribute loop is a lookup by name in which the last
    occurrence of a name wins; a [multi_class] attribute counts when it is
    non-zero, wherever it stands. *)
Theorem attribute_loop_keeps_last attrs :
  scan_attributes attrs =
  {| coefficients :=
       (λ a, array1 (attr_floats a)) <$> last_attr "coefficients" attrs;
     intercepts :=
       (λ a, array1 (attr_floats a)) <$> last_attr "intercepts" attrs;
     classes := attr_ints <$> last_attr "classlabels_ints" attrs;
     multi_class :=
       if decide (explicit_multi_class attrs)
       then Some "multinomial" else None |}.
Proof.
  rewrite <- scan_coefficients, <- scan_intercepts, <- scan_classes,
    <- scan_multi_class.
  by destruct (scan_attributes attrs).
Qed.

Lemma filter_name_at_most_one n attrs :
  NoDup (attr_name <$> attrs) →
  length (filter (λ a, attr_name a = n) attrs) ≤ 1.
Proof.
  induction attrs as [|a attrs IH]; [simpl; lia|].
  rewrite fmap_cons, NoDup_cons. intros [Hnotin Hnodup].
  rewrite filter_cons. destruct (decide (attr_name a = n)) as [Hn|Hn].
  - assert (filter (λ a, attr_name a = n) attrs = []) as ->; [|done].
    destruct (filter _ attrs) as [|b l] eqn:E; [done|].
    assert (b ∈ filter (λ a, attr_name a = n) attrs) as Hb
      by (rewrite E; left).
    apply list_elem_of_filter in Hb as [Hbn Hb].
    destruct Hnotin. rewrite Hn, <- Hbn. by apply list_elem_of_fmap_2.
  - by apply IH.
Qed.

Lemma last_attr_permutation n attrs1 attrs2 :
  NoDup (attr_name <$> attrs1) → attrs1 ≡ₚ attrs2 →
  last_attr n attrs1 = last_attr n attrs2.
Proof.
  intros Hnodup Hperm. unfold last_attr.
  pose proof (filter_name_at_most_one n attrs1 Hnodup) as Hlen.
  assert (filter (λ a, attr_name a = n) attrs1
          ≡ₚ filter (λ a, attr_name a = n) attrs2) as Hf by by rewrite Hperm.
  destruct (filter _ attrs1) as [|x [|y l]]; simpl in Hlen; [| |lia].
  - by apply Permutation_nil_l in Hf as <-.
  - by apply Permutation_singleton_l in Hf as <-.
Qed.

Lemma scan_permutation attrs1 attrs2 :
  NoDup (attr_name <$> attrs1) → attrs1 ≡ₚ attrs2 →
  scan_attributes attrs1 = scan_attributes attrs2.
Proof.
  intros Hnodup Hperm.
  pose proof (scan_coefficients attrs1) as Hc.
  pose proof (scan_intercepts attrs1) as Hi.
  pose proof (scan_classes attrs1) as Hl.
  pose proof (scan_multi_class attrs1) as Hm.
  rewrite (last_attr_permutation "coefficients" _ _ Hnodup Hperm) in Hc.
  rewrite (last_attr_permutation "intercepts" _ _ Hnodup Hperm) in Hi.
  rewrite (last_attr_permutation "classlabels_ints" _ _ Hnodup Hperm) in Hl.
  rewrite <- scan_coefficients in Hc. rewrite <- scan_intercepts in Hi.
  rewrite <- scan_classes in Hl.
  assert (multi_class (scan_attributes attrs1)
          = multi_class (scan_attributes attrs2)) as Hm'.
  { rewrite Hm, scan_multi_class. unfold explicit_multi_class.
    destruct (decide (Exists _ attrs1)) as [H1|H1],
             (decide (Exists _ attrs2)) as [H2|H2]; try done.
    - destruct H2. by rewrite <- Hperm.
    - destruct H1. by rewrite Hperm. }
  destruct (scan_attributes attrs1), (scan_attributes attrs2).
  simpl in *. congruence.
Qed.

(** X2: ONNX attributes carry no order. For an operator whose attribute
    names are pairwise distinct, listing the attributes in another order
    changes nothing: same fragment, or same exception. *)
Theorem attribute_order_is_irrelevant op1 op2 dev cfg :
  NoDup (attr_name <$> attrs_of op1) →
  attrs_of op1 ≡ₚ attrs_of op2 →
  op_type (raw_operator op1) = op_type (raw_operator op2) →
  convert_onnx_linear_model (Some op1) dev cfg =
  convert_onnx_linear_model (Some op2) dev cfg.
Proof.
  intros Hnodup Hperm Htype. unfold convert_onnx_linear_model.
  unfold attrs_of in *.
  rewrite (scan_permutation _ _ Hnodup Hperm), Htype. done.
Qed.

(** X3: with more than two classes, a coefficient list whose length is not
    a multiple of the number of classes makes numpy's [reshape] fail: the
    converter raises a ValueError, not one of its own RuntimeErrors. *)
Theorem multiclass_indivisible_raises op dev cfg ca ia la :
  last_attr "coefficients" (attrs_of op) = Some ca →
  last_attr "intercepts" (attrs_of op) = Some ia →
  last_attr "classlabels_ints" (attrs_of op) = Some la →
  2 < length (attr_ints la) →
  length (attr_floats ca) `mod` length (attr_ints la) ≠ 0 →
  convert_onnx_linear_model (Some op) dev cfg =
  inl (ValueError "cannot reshape array of size {} into shape {}").
Proof.
  intros Hc Hi Hl Hcls Hmod.
  rewrite (convert_present op dev cfg ca ia la Hc Hi Hl).
  unfold reshape_parameters.
  rewrite decide_False by lia. rewrite decide_True by done.
  unfold reshape, len. cbn [array1 shape data hd].
  rewrite decide_False; [done|].
  intros E. apply Hmod. apply Nat.Div0.div_exact. lia.
Qed.

(** X4: the converter returns a fragment exactly when the three
    attributes are present and there are either exactly two classes, or
    more than two and a number of coefficients that is a multiple of the
    number of classes. *)
Theorem returns_fragment_iff op dev cfg :
  (∃ frag, convert_onnx_linear_model (Some op) dev cfg = inr frag) ↔
  ∃ ca ia la,
    last_attr "coefficients" (attrs_of op) = Some ca ∧
    last_attr "intercepts" (attrs_of op) = Some ia ∧
    last_attr "classlabels_ints" (attrs_of op) = Some la ∧
    (length (attr_ints la) = 2 ∨
     2 < length (attr_ints la) ∧
     length (attr_floats ca) `mod` length (attr_ints la) = 0).
Proof.
  split.
  - intros [frag Hfrag].
    destruct (last_attr "coefficients" (attrs_of op)) as [ca|] eqn:Hc.
    2:{ rewrite convert_absent in Hfrag; [done|].
        left. by apply last_attr_absent. }
    destruct (last_attr "intercepts" (attrs_of op)) as [ia|] eqn:Hi.
    2:{ rewrite convert_absent in Hfrag; [done|].
        right; left. by apply last_attr_absent. }
    destruct (last_attr "classlabels_ints" (attrs_of op)) as [la|] eqn:Hl.
    2:{ rewrite convert_absent in Hfrag; [done|].
        right; right. by apply last_attr_absent. }
    exists ca, ia, la. split_and!; try done.
    rewrite (convert_present op dev cfg ca ia la Hc Hi Hl) in Hfrag.
    unfold reshape_parameters in Hfrag.
    destruct (decide (length (attr_ints la) = 2)) as [|Hne]; [by left|].
    destruct (decide (2 < length (attr_ints la))) as [Hgt|]; [|done].
    right. split; [done|].
    unfold reshape, len in Hfrag. cbn [array1 shape data hd] in Hfrag.
    destruct (decide (_ = length (attr_floats ca))) as [E|]; [|done].
    apply Nat.Div0.div_exact. lia.
  - intros (ca & ia & la & Hc & Hi & Hl & Hcase).
    rewrite (convert_present op dev cfg ca ia la Hc Hi Hl).
    unfold reshape_parameters. destruct Hcase as [H2|[Hgt Hmod]].
    + rewrite decide_True by done. by eexists.
    + rewrite decide_False by lia. rewrite decide_True by done.
      unfold reshape, len. cbn [array1 shape data hd].
      rewrite decide_True; [by eexists|].
      apply Nat.Div0.div_exact in Hmod. lia.
Qed.

(** X5: what every returned fragment satisfies. It carries the device it
    was given and the class labels as found, at least two of them; its
    mode is one of the three, ["none"] only with exactly two classes and
    ["ovr"] only with three or more; and it is marked as a regression
    exactly for a node of type [LinearRegressor]. *)
Theorem fragment_invariants op dev cfg frag :
  convert_onnx_linear_model (Some op) dev cfg = inr frag →
  lm_device frag = dev ∧
  attr_ints <$> last_attr "classlabels_ints" (attrs_of op)
    = Some (lm_classes frag) ∧
  2 ≤ length (lm_classes frag) ∧
  (lm_multi_class frag = "none" ∨ lm_multi_class frag = "ovr"
   ∨ lm_multi_class frag = "multinomial") ∧
  (lm_multi_class frag = "none" → length (lm_classes frag) = 2) ∧
  (lm_multi_class frag = "ovr" → 3 ≤ length (lm_classes frag)) ∧
  (lm_is_linear_regression frag = true ↔
   op_type (raw_operator op) = "LinearRegressor").
Proof.
  intros Hfrag.
  destruct (last_attr "coefficients" (attrs_of op)) as [ca|] eqn:Hc.
  2:{ rewrite convert_absent in Hfrag; [done|].
      left. by apply last_attr_absent. }
  destruct (last_attr "intercepts" (attrs_of op)) as [ia|] eqn:Hi.
  2:{ rewrite convert_absent in Hfrag; [done|].
      right; left. by apply last_attr_absent. }
  destruct (last_attr "classlabels_ints" (attrs_of op)) as [la|] eqn:Hl.
  2:{ rewrite convert_absent in Hfrag; [done|].
      right; right. by apply last_attr_absent. }
  rewrite (convert_present op dev cfg ca ia la Hc Hi Hl) in Hfrag.
  assert (2 ≤ length (attr_ints la)) as Hlen.
  { unfold reshape_parameters in Hfrag.
    destruct (decide (length (attr_ints la) = 2)); [lia|].
    destruct (decide (2 < length (attr_ints la))); [lia|done]. }
  destruct (reshape_parameters _ _ _) as [e|p]; [done|].
  cbn [rbind] in Hfrag. injection Hfrag as <-. cbn.
  rewrite scan_multi_class. unfold resolve_multi_class.
  split_and!; try done.
  - destruct (decide (explicit_multi_class _)); [auto|].
    destruct (decide (length (attr_ints la) < 3)); auto.
  - destruct (decide (explicit_multi_class _)); [done|].
    destruct (decide (length (attr_ints la) < 3)); [lia|done].
  - destruct (decide (explicit_multi_class _)); [done|].
    destruct (decide (length (attr_ints la) < 3)); [done|lia].
  - apply bool_decide_eq_true.
Qed.

Lemma keep_larger_half (l : list F) :
  1 ≤ length l →
  array2 ((λ val, [val]) <$> iter1 (slice_from (len (array1 l) / 2) (array1 l)))
  = {| shape := [length l - length l / 2; 1];
       data := drop (length l / 2) l |}.
Proof.
  intros Hl. unfold iter1, slice_from, len. cbn [array1 shape data hd].
  assert (length l / 2 < length l) as Hhalf by (apply Nat.div_lt; lia).
  rewrite array2_singletons.
  - by rewrite length_drop.
  - intros E. apply (f_equal length) in E. rewrite length_drop in E.
    cbn [length] in E. lia.
Qed.

(** X6: in the binary case the split is at [len // 2] whatever the
    length. A non-empty list of [n] coefficients gives the tensor of shape
    [(n - n // 2, 1)] of its last [n - n // 2] values, so an odd length
    keeps the larger part and a single value is kept as it is; the first
    [n // 2] values never reach the fragment. Likewise for intercepts. *)
Theorem binary_split_any_length op dev cfg ca ia la :
  last_attr "coefficients" (attrs_of op) = Some ca →
  last_attr "intercepts" (attrs_of op) = Some ia →
  last_attr "classlabels_ints" (attrs_of op) = Some la →
  length (attr_ints la) = 2 →
  1 ≤ length (attr_floats ca) → 1 ≤ length (attr_floats ia) →
  ∃ frag,
    convert_onnx_linear_model (Some op) dev cfg = inr frag ∧
    lm_coefficients frag =
      {| shape := [length (attr_floats ca) - length (attr_floats ca) / 2; 1];
         data := drop (length (attr_floats ca) / 2) (attr_floats ca) |} ∧
    lm_intercepts frag =
      {| shape := [length (attr_floats ia) - length (attr_floats ia) / 2; 1];
         data := drop (length (attr_floats ia) / 2) (attr_floats ia) |}.
Proof.
  intros Hc Hi Hl Hcls Hn Hn'.
  rewrite (convert_present op dev cfg ca ia la Hc Hi Hl).
  unfold reshape_parameters. rewrite decide_True by done. cbn [rbind].
  eexists. split; [reflexivity|]. cbn [lm_coefficients lm_intercepts fst snd].
  by rewrite !keep_larger_half.
Qed.

(** X7: the tensors and the outcome depend on the three parameter
    attributes alone. Two operators that agree on them are both converted
    or both rejected with the same exception, and when converted have the
    same coefficients, intercepts and classes: the [multi_class] flag, the
    node type and any other attribute have no part in the reshaping. *)
Theorem only_parameters_are_read op1 op2 dev cfg :
  (∀ n, n ∈ parameter_names →
        last_attr n (attrs_of op1) = last_attr n (attrs_of op2)) →
  match convert_onnx_linear_model (Some op1) dev cfg,
        convert_onnx_linear_model (Some op2) dev cfg with
  | inr frag1, inr frag2 =>
      lm_coefficients frag1 = lm_coefficients frag2 ∧
      lm_intercepts frag1 = lm_intercepts frag2 ∧
      lm_classes frag1 = lm_classes frag2
  | inl e1, inl e2 => e1 = e2
  | _, _ => False
  end.
Proof.
  intros Hsame.
  assert (last_attr "coefficients" (attrs_of op1)
          = last_attr "coefficients" (attrs_of op2)) as Hc
    by (apply Hsame; set_solver).
  assert (last_attr "intercepts" (attrs_of op1)
          = last_attr "intercepts" (attrs_of op2)) as Hi
    by (apply Hsame; set_solver).
  assert (last_attr "classlabels_ints" (attrs_of op1)
          = last_attr "classlabels_ints" (attrs_of op2)) as Hl
    by (apply Hsame; set_solver).
  destruct (last_attr "coefficients" (attrs_of op1)) as [ca|] eqn:Hc1.
  2:{ rewrite !convert_absent; [done|left; by apply last_attr_absent..]. }
  destruct (last_attr "intercepts" (attrs_of op1)) as [ia|] eqn:Hi1.
  2:{ rewrite !convert_absent;
        [done|right; left; by apply last_attr_absent..]. }
  destruct (last_attr "classlabels_ints" (attrs_of op1)) as [la|] eqn:Hl1.
  2:{ rewrite !convert_absent;
        [done|right; right; by apply last_attr_absent..]. }
  rewrite (convert_present op1 dev cfg ca ia la) by done.
  rewrite (convert_present op2 dev cfg ca ia la) by done.
  by destruct (reshape_parameters _ _ _).
Qed.

End Loop.

(** ** Undoing the transposition *)

Section RoundTrip.
Context {F : Type}.
Implicit Types (l : list F) (R Z : list (list F)).

Lemma mjoin_blocks l c m :
  length l = c * m →
  mjoin ((λ j, take m (drop (j * m) l)) <$> seq 0 c) = l.
Proof.
  revert l. induction c as [|c IH]; intros l Hl.
  { by apply nil_length_inv in Hl as ->. }
  cbn [seq fmap list_fmap]. rewrite <- fmap_S_seq, <- list_fmap_compose.
  assert (((λ j, take m (drop (j * m) l)) ∘ S) <$> seq 0 c
          = (λ j, take m (drop (j * m) (drop m l))) <$> seq 0 c) as ->.
  { apply list_fmap_ext. intros i j _. cbn. by rewrite drop_drop. }
  cbn. rewrite drop_0.
  rewrite IH; [apply take_drop|]. rewrite length_drop. lia.
Qed.

Lemma rows_mjoin Z m c :
  length Z = m → Forall (λ z, length z = c) Z →
  rows {| shape := [m; c]; data := mjoin Z |} = Z.
Proof.
  intros <- HZ. unfold rows. cbn [shape data].
  induction HZ as [|z Z Hz HZ IH]; [done|].
  cbn [length seq fmap list_fmap]. f_equal.
  - cbn. rewrite drop_0. by rewrite take_app_length'.
  - rewrite <- fmap_S_seq, <- list_fmap_compose. rewrite <- IH at 2.
    apply list_fmap_ext. intros i j _. cbn.
    f_equal. by rewrite drop_app_add'.
Qed.

Lemma zip_star_involutive R m :
  R ≠ [] → 0 < m → Forall (λ r, length r = m) R →
  zip_star (zip_star R) = R.
Proof.
  intros HR Hm HRm.
  pose proof (zip_star_length R m HR HRm) as HZlen.
  assert (zip_star R ≠ []) as HZ.
  { intros E. rewrite E in HZlen. simpl in HZlen. lia. }
  apply list_eq. intros j. rewrite zip_star_lookup by done.
  destruct (R !! j) as [r|] eqn:Hr.
  - apply mapM_Some_2, Forall2_same_length_lookup_2.
    + rewrite HZlen. symmetry.
      by eapply (Forall_lookup_1 _ _ _ _ HRm).
    + intros i z y Hz Hy.
      apply (zip_star_columns R m) in Hz as [_ Hcol]; [|done..].
      destruct (Forall2_lookup_l _ _ _ _ _ Hcol Hr) as (y' & Hy' & Hget).
      congruence.
  - destruct (zip_star R) as [|z Z] eqn:EZ; [done|].
    assert (z !! j = None) as Hz.
    { assert (zip_star R !! 0 = Some z) as H0 by by rewrite EZ.
      apply (zip_star_columns R m) in H0 as [_ Hcol]; [|done..].
      apply Forall2_length in Hcol. apply lookup_ge_None.
      rewrite <- Hcol. by apply lookup_ge_None. }
    cbn. by rewrite Hz.
Qed.

Lemma array2_data (Z : list (list F)) : data (array2 Z) = mjoin Z.
Proof. by destruct Z. Qed.

(** X8: in the multiclass case nothing is lost or duplicated. With more
    than two classes and [c * m] coefficients, [m >= 1], the tensor of the
    fragment holds as many scalars as the attribute, and transposing its
    rows back and flattening them returns the raw coefficient list. *)
Theorem multiclass_coefficients_recovered
    (op : Operator F) dev cfg ca ia la m :
  last_attr "coefficients" (attrs_of op) = Some ca →
  last_attr "intercepts" (attrs_of op) = Some ia →
  last_attr "classlabels_ints" (attrs_of op) = Some la →
  2 < length (attr_ints la) →
  length (attr_floats ca) = length (attr_ints la) * m → 1 ≤ m →
  ∃ frag,
    convert_onnx_linear_model (Some op) dev cfg = inr frag ∧
    length (data (lm_coefficients frag)) = length (attr_floats ca) ∧
    mjoin (zip_star (rows (lm_coefficients frag))) = attr_floats ca.
Proof.
  intros Hc Hi Hl Hcls Hlen Hm. set (c := length (attr_ints la)) in *.
  rewrite (convert_present op dev cfg ca ia la Hc Hi Hl).
  unfold reshape_parameters. fold c.
  rewrite decide_False by lia. rewrite decide_True by done.
  unfold reshape, len. cbn [array1 shape data hd].
  assert (length (attr_floats ca) / c = m) as ->.
  { rewrite Hlen, Nat.mul_comm. apply Nat.div_mul. lia. }
  rewrite decide_True by done. cbn [rbind].
  eexists. split; [reflexivity|]. cbn [lm_coefficients fst].
  rewrite rows_blocks.
  set (R := (λ j, take m (drop (j * m) (attr_floats ca))) <$> seq 0 c).
  assert (R ≠ []) as HR.
  { intros E. apply (f_equal length) in E.
    unfold R in E. rewrite length_fmap, length_seq in E. simpl in E. lia. }
  pose proof (blocks_uniform (attr_floats ca) c m Hlen) as HRm. fold R in HRm.
  pose proof (zip_star_length R m HR HRm) as HZlen.
  assert (length R = c) as HRlen
    by (unfold R; by rewrite length_fmap, length_seq).
  assert (Forall (λ col, length col = c) (zip_star R)) as HZc.
  { apply Forall_lookup. intros i col Hcol.
    apply (zip_star_columns R m) in Hcol as [_ Hcol]; [|done..].
    apply Forall2_length in Hcol. by rewrite <- Hcol. }
  assert (array2 (zip_star R)
          = {| shape := [m; c]; data := mjoin (zip_star R) |}) as ->.
  { destruct (zip_star R) as [|col0 Z] eqn:EZ; [simpl in HZlen; lia|].
    assert (length col0 = c) as Hcol0 by by inv HZc.
    unfold array2. by rewrite HZlen, Hcol0. }
  rewrite (rows_mjoin _ m c HZlen HZc).
  rewrite (zip_star_involutive R m HR ltac:(lia) HRm).
  cbn [data]. split; [|by apply mjoin_blocks].
  rewrite length_join, (sum_list_fmap_same c) by done. lia.
Qed.

End RoundTrip.

(** ** Runs *)

Lemma attribute_order_is_irrelevant_witness :
  convert_onnx_linear_model (Some scenario_A) None ∅ =
  convert_onnx_linear_model (Some scenario_A_reordered) None ∅.
Proof.
  apply (attribute_order_is_irrelevant scenario_A scenario_A_reordered).
  - apply (bool_decide_unpack _). vm_compute. exact I.
  - apply (Permutation_app_comm
             [floats_attr "coefficients" [1%Q; 2%Q; (-1)%Q; (-2)%Q];
              floats_attr "intercepts" [(1 # 2)%Q; (-1 # 2)%Q]]
             [ints_attr "classlabels_ints" [0%Z; 1%Z]]).
  - reflexivity.
Defined.

Lemma multiclass_indivisible_raises_witness :
  convert_onnx_linear_model (Some indivisible) None ∅ =
  inl (ValueError "cannot reshape array of size {} into shape {}").
Proof.
  apply (multiclass_indivisible_raises indivisible None ∅
           (floats_attr "coefficients" [1%Q; 2%Q; 3%Q; 4%Q])
           (floats_attr "intercepts" [0%Q; 0%Q; 0%Q])
           (ints_attr "classlabels_ints" [0%Z; 1%Z; 2%Z]));
    first [reflexivity | simpl; lia].
Defined.

Lemma fragment_invariants_witness :
  ∃ frag,
    convert_onnx_linear_model (Some scenario_B_decorated) (Some "cpu") ∅
      = inr frag ∧
    lm_device frag = Some "cpu" ∧
    lm_classes frag = [0%Z; 1%Z; 2%Z] ∧
    lm_multi_class frag = "multinomial" ∧
    lm_is_linear_regression frag = true.
Proof.
  eexists. split; [vm_compute; reflexivity|].
  pose proof (fragment_invariants scenario_B_decorated (Some "cpu") ∅ _
                eq_refl) as (Hdev & Hcls & _ & _ & _ & _ & Hreg).
  split_and!; [exact Hdev|reflexivity|reflexivity|].
  apply Hreg. reflexivity.
Defined.

Lemma binary_split_any_length_witness :
  ∃ frag,
    convert_onnx_linear_model (Some odd_binary) None ∅ = inr frag ∧
    lm_coefficients frag = {| shape := [2; 1]; data := [2%Q; 3%Q] |} ∧
    lm_intercepts frag = {| shape := [1; 1]; data := [(1 # 2)%Q] |}.
Proof.
  apply (binary_split_any_length odd_binary None ∅
           (floats_attr "coefficients" [1%Q; 2%Q; 3%Q])
           (floats_attr "intercepts" [(1 # 2)%Q])
           (ints_attr "classlabels_ints" [0%Z; 1%Z]));
    first [reflexivity | simpl; lia].
Defined.

Lemma only_parameters_are_read_witness :
  match convert_onnx_linear_model (Some scenario_B) None ∅,
        convert_onnx_linear_model (Some scenario_B_decorated) None ∅ with
  | inr frag1, inr frag2 =>
      lm_coefficients frag1 = lm_coefficients frag2 ∧
      lm_intercepts frag1 = lm_intercepts frag2 ∧
      lm_classes frag1 = lm_classes frag2
  | inl e1, inl e2 => e1 = e2
  | _, _ => False
  end.
Proof.
  apply (only_parameters_are_read scenario_B scenario_B_decorated None ∅).
  intros n Hn. unfold parameter_names in Hn.
  repeat (apply elem_of_cons in Hn as [-> | Hn]; [reflexivity|]).
  by apply elem_of_nil in Hn.
Defined.

Lemma multiclass_coefficients_recovered_witness :
  ∃ frag,
    convert_onnx_linear_model (Some scenario_B) None ∅ = inr frag ∧
    length (data (lm_coefficients frag)) = 9 ∧
    mjoin (zip_star (rows (lm_coefficients frag)))
      = [1%Q; 2%Q; 3%Q; 4%Q; 5%Q; 6%Q; 7%Q; 8%Q; 9%Q].
Proof.
  apply (multiclass_coefficients_recovered scenario_B None ∅
           (floats_attr "coefficients"
              [1%Q; 2%Q; 3%Q; 4%Q; 5%Q; 6%Q; 7%Q; 8%Q; 9%Q])
           (floats_attr "intercepts" [(1 # 2)%Q; 0%Q; (-1 # 2)%Q])
           (ints_attr "classlabels_ints" [0%Z; 1%Z; 2%Z]) 3);
    first [reflexivity | simpl; lia].
Defined.

End LinearExtra.

(** * Further properties of the entry points *)

Module ConvertExtra.
Import Convert ConvertSpec ConvertFacts MoreExamples.

Section EntryPointExtra.
Context {Model Topology HbModel : Type}.
Context {Node Init IR OnnxModel : Type}.
Variable env : installed.
Variable _features_count : Model → option value.
Variable parse_sklearn_api_model : Model → result Topology.
Variable topology_converter : Topology → gmap string value → result HbModel.
Variable linked_node_converter :
  IR → list ValueInfoProto → list Init → list string → pyobj →
  gmap string value → result OnnxModel.
Variable build_from_onnx :
  list Node → list string → list string → list string → list Init → result IR.
Variable backend_map : gset string.

Local Abbreviation sklearn :=
  (convert_sklearn env parse_sklearn_api_model topology_converter).
Local Abbreviation lightgbm :=
  (convert_lightgbm env parse_sklearn_api_model topology_converter).
Local Abbreviation xgboost :=
  (convert_xgboost env _features_count parse_sklearn_api_model
     topology_converter).
Local Abbreviation onnxml :=
  (convert_onnxml env linked_node_converter build_from_onnx).

(** What [convert_sklearn] comes to, case by case. *)
Lemma convert_sklearn_cases model test_input s :
  sklearn model test_input s =
  match model with
  | None => (s, inl (AssertionError ""))
  | Some m =>
      if torch_installed env then
        match parse_sklearn_api_model m with
        | inl e =>
            ({| extra_config := extra_config s;
                calls := calls s ++ [ParseSklearnApiModel] |}, inl e)
        | inr t =>
            ({| extra_config := extra_config s;
                calls := calls s ++ [ParseSklearnApiModel; TopologyConverter] |},
             topology_converter t (extra_config s))
        end
      else
        (s, inl (AssertionError
                   "To use Hummingbird you need to install torch."))
  end.
Proof.
  unfold convert_sklearn, bind, assert, external, the_config, ret, deepcopy.
  destruct model as [m|]; [|done].
  destruct (torch_installed env); [|done]. cbn.
  destruct (parse_sklearn_api_model m) as [e|t]; [done|]. cbn.
  rewrite <- app_assoc. cbn.
  by destruct (topology_converter t (extra_config s)).
Qed.

(** X9: an exception raised by the parser comes out of [convert_sklearn]
    unchanged, and the topology converter is not called after it. *)
Theorem parse_failure_propagates m test_input s e :
  torch_installed env = true →
  parse_sklearn_api_model m = inl e →
  convert_sklearn env parse_sklearn_api_model topology_converter (Some m)
    test_input s
  = (after_calls s [ParseSklearnApiModel], inl e).
Proof.
  intros Ht He. by rewrite convert_sklearn_cases, Ht, He.
Qed.

(** X10: when [convert_sklearn] returns a model, there was a model to
    convert, torch is installed, the parser accepted the model, and the
    returned model is what the topology converter made of the parsed
    topology and of the caller's configuration as it stood; the parser and
    the converter have each been called once, in this order. The
    [test_input] plays no part. *)
Theorem convert_sklearn_returns model test_input s s' hb_model :
  convert_sklearn env parse_sklearn_api_model topology_converter model
    test_input s = (s', inr hb_model) →
  ∃ m topology,
    model = Some m ∧ torch_installed env = true ∧
    parse_sklearn_api_model m = inr topology ∧
    topology_converter topology (extra_config s) = inr hb_model ∧
    extra_config s' = extra_config s ∧
    calls s' = (calls s ++ [ParseSklearnApiModel; TopologyConverter])%list.
Proof.
  rewrite convert_sklearn_cases. intros H.
  destruct model as [m|]; [|done].
  destruct (torch_installed env); [|done].
  destruct (parse_sklearn_api_model m) as [e|t] eqn:Hp; [done|].
  injection H as <- H. by exists m, t.
Qed.

(** X11: the calls an estimator entry point adds to those made before
    are none, the parser alone, or the parser followed by the topology
    converter; the converter is never called without the parser before it,
    and a model is returned only after both. *)
Theorem estimator_call_order model test_input s :
  let shape_ok (r : state * result HbModel) :=
    (∃ e, r.2 = inl e ∧
          (calls r.1 = calls s
           ∨ calls r.1 = (calls s ++ [ParseSklearnApiModel])%list
           ∨ calls r.1 =
             (calls s ++ [ParseSklearnApiModel; TopologyConverter])%list))
    ∨ (∃ hb, r.2 = inr hb ∧
             calls r.1 =
             (calls s ++ [ParseSklearnApiModel; TopologyConverter])%list) in
  shape_ok (sklearn model test_input s) ∧
  shape_ok (lightgbm model test_input s) ∧
  shape_ok (xgboost model test_input s).
Proof.
  intros shape_ok.
  assert (∀ cfg, shape_ok (sklearn model test_input (with_config s cfg)))
    as Hsk.
  { intros cfg. unfold shape_ok. rewrite convert_sklearn_cases.
    destruct model as [m|]; [|left; eexists; split; [done|auto]].
    destruct (torch_installed env); [|left; eexists; split; [done|auto]].
    destruct (parse_sklearn_api_model m) as [e|t];
      [left; eexists; split; [done|auto]|].
    cbn. destruct (topology_converter t cfg) as [e|hb].
    - left. eexists. split; [done|auto].
    - right. by eexists. }
  assert (with_config s (extra_config s) = s) as Hs by by destruct s.
  split_and!.
  - specialize (Hsk (extra_config s)). by rewrite Hs in Hsk.
  - unfold convert_lightgbm, bind, assert.
    destruct (lightgbm_installed env); cbn.
    + specialize (Hsk (extra_config s)). by rewrite Hs in Hsk.
    + left. eexists. split; [done|auto].
  - destruct (xgboost_installed env) eqn:Henv.
    2:{ unfold convert_xgboost, bind, assert. rewrite Henv. cbn.
        left. eexists. split; [done|auto]. }
    rewrite convert_xgboost_unfold by done.
    destruct (extra_config s !! N_FEATURES).
    { specialize (Hsk (extra_config s)). by rewrite Hs in Hsk. }
    destruct (model ≫= _features_count); [apply Hsk|].
    destruct test_input as [[dt [|r [|c [|? ?]]]|t]|];
      first [apply Hsk | left; eexists; split; [done|auto]].
Qed.

(** X12: a feature count given in the configuration settles the matter.
    With [n_features] present, [convert_xgboost] asks neither the model nor
    the test input, which may then be anything, and is [convert_sklearn]. *)
Theorem n_features_given_skips_inference model test_input s n :
  xgboost_installed env = true →
  extra_config s !! N_FEATURES = Some n →
  xgboost model test_input s = sklearn model test_input s.
Proof.
  intros Henv Hn. by rewrite convert_xgboost_unfold, Hn.
Qed.

(** X13: [convert_xgboost] only ever adds to the configuration. Every
    pair the caller's dictionary held is still there after the call, the
    value of [n_features] included, and no key other than [n_features] is
    introduced. *)
Theorem xgboost_only_adds model test_input s :
  extra_config s ⊆ extra_config (xgboost model test_input s).1 ∧
  ∀ key, key ≠ N_FEATURES →
         extra_config (xgboost model test_input s).1 !! key
         = extra_config s !! key.
Proof.
  rewrite convert_xgboost_config. unfold config_after_xgboost.
  destruct (xgboost_installed env); [|done].
  unfold infer_n_features.
  destruct (extra_config s !! N_FEATURES) as [v|] eqn:E.
  { by rewrite insert_id. }
  assert (∀ n,
            extra_config s ⊆ <[N_FEATURES := n]> (extra_config s) ∧
            ∀ key, key ≠ N_FEATURES →
                   <[N_FEATURES := n]> (extra_config s) !! key
                   = extra_config s !! key) as Hadd.
  { intros n. split.
    - by apply insert_subseteq.
    - intros key Hkey. by rewrite lookup_insert_ne. }
  destruct (model ≫= _features_count) as [n|]; [apply Hadd|].
  destruct (two_dimensional test_input) as [c|]; cbn; [apply Hadd|done].
Qed.

(** X14: the count recorded by one call is the count of every later call
    on the same dictionary. Once [n_features] is there, a second call leaves
    the configuration as it is, whatever its model reports. *)
Theorem xgboost_keeps_recorded_count model1 test_input1 model2 test_input2 s :
  let s1 := (xgboost model1 test_input1 s).1 in
  is_Some (extra_config s1 !! N_FEATURES) →
  extra_config (xgboost model2 test_input2 s1).1 = extra_config s1.
Proof.
  intros s1 [n Hn]. rewrite convert_xgboost_config.
  unfold config_after_xgboost, infer_n_features. rewrite Hn.
  destruct (xgboost_installed env); [|done]. by rewrite insert_id.
Qed.

(** X15: the feature count is recorded before the model is looked at. A
    call without a model and with a two-dimensional test input raises the
    assertion on the model, and has by then written [n_features]. *)
Theorem xgboost_records_before_failing dt rows columns s :
  xgboost_installed env = true →
  extra_config s !! N_FEATURES = None →
  xgboost None (Some (PyNdarray dt [rows; columns])) s =
    (with_config s
       (<[N_FEATURES := VInt (Z.of_nat columns)]> (extra_config s)),
     inl (AssertionError "")).
Proof.
  intros Henv Hn. by rewrite convert_xgboost_unfold, Hn.
Qed.

(** X16: a missing runtime is reported before anything else happens.
    Without LightGBM, [convert_lightgbm] raises its assertion whatever the
    model; without XGBoost, [convert_xgboost] raises its assertion and
    writes nothing into the configuration, even where a count could be
    inferred. *)
Theorem missing_runtime_raises_first model test_input s :
  (lightgbm_installed env = false →
   convert_lightgbm env parse_sklearn_api_model topology_converter model
     test_input s =
     (s, inl (AssertionError
                "To convert LightGBM models you need to instal LightGBM.")))
  ∧
  (xgboost_installed env = false →
   convert_xgboost env _features_count parse_sklearn_api_model
     topology_converter model test_input s =
     (s, inl (AssertionError
                "To convert XGboost models you need to instal XGBoost."))).
Proof.
  split; intros Henv.
  - unfold convert_lightgbm, bind, assert. by rewrite Henv.
  - unfold convert_xgboost, bind, assert. by rewrite Henv.
Qed.

(** X17: test data that is passed goes to the converter as it is. When
    the checks pass and the IR is built, the call returns what the
    linked-node converter returns for that IR, the selected inputs, the
    given or defaulted output names, the passed test data and the caller's
    configuration; the IR is built from all declared input names of the
    model, selected or not. *)
Theorem supplied_test_data_passes_through
    graph output_model_name initial_types input_names output_names d
    target_opset s ir :
  entry_checks_pass env graph input_names initial_types →
  let outs := default (default_output_names graph) output_names in
  build_from_onnx (node graph) [] (vi_name <$> input graph) outs
    (initializer graph) = inr ir →
  onnxml (Some graph) output_model_name initial_types input_names
    output_names (Some d) target_opset s =
  (after_calls s [BuildFromOnnx; LinkedNodeConverter],
   linked_node_converter ir (resolve_inputs graph input_names)
     (initializer graph) outs d (extra_config s)).
Proof.
  intros (Ht & Ho & Hin & Hts) outs Hbuild.
  rewrite convert_onnxml_cases, Ht, Ho. fold outs. rewrite Hbuild.
  rewrite !bool_decide_eq_true_2 by (eauto || lia).
  destruct initial_types as [ts|]; [|done].
  by rewrite bool_decide_eq_true_2 by eauto.
Qed.

(** X18: with test data passed, what the initial types declare is never
    looked at: any two lists of one initial type, and no list at all, give
    the same outcome. *)
Theorem declarations_unused_with_test_data
    graph output_model_name t1 t2 input_names output_names d target_opset s :
  let run initial_types :=
    convert_onnxml env linked_node_converter build_from_onnx (Some graph)
      output_model_name initial_types input_names output_names (Some d)
      target_opset s in
  run (Some [t1]) = run (Some [t2]) ∧ run (Some [t1]) = run None.
Proof.
  intros run. subst run. cbv beta.
  rewrite !convert_onnxml_cases. cbn [length].
  rewrite !(bool_decide_eq_true_2 (is_Some (Some d) ∨ _)) by eauto.
  by rewrite !(bool_decide_eq_true_2 (1 = 1)).
Qed.

(** X19: an exception raised while the IR is built comes out of
    [convert_onnxml] unchanged, and the linked-node converter is not
    called. *)
Theorem build_failure_propagates
    graph output_model_name initial_types input_names output_names d
    target_opset s e :
  entry_checks_pass env graph input_names initial_types →
  build_from_onnx (node graph) [] (vi_name <$> input graph)
    (default (default_output_names graph) output_names)
    (initializer graph) = inl e →
  onnxml (Some graph) output_model_name initial_types input_names
    output_names (Some d) target_opset s =
  (after_calls s [BuildFromOnnx], inl e).
Proof.
  intros (Ht & Ho & Hin & Hts) Hbuild.
  rewrite convert_onnxml_cases, Ht, Ho, Hbuild.
  rewrite !bool_decide_eq_true_2 by (eauto || lia).
  destruct initial_types as [ts|]; [|done].
  by rewrite bool_decide_eq_true_2 by eauto.
Qed.

(** X20: the checks on the arguments of [convert_onnxml], with both
    runtimes installed. Without test data and without initial types the
    call is refused before the inputs are looked at; input names that match
    no input of the model are refused; and a list of initial types that has
    not exactly one entry is refused even when test data is passed. Nothing
    has been built by then. *)
Theorem onnxml_argument_checks
    graph output_model_name initial_types input_names output_names
    test_data target_opset s :
  torch_installed env = true → onnx_installed env = true →
  let run :=
    onnxml (Some graph) output_model_name initial_types input_names
      output_names test_data target_opset s in
  (test_data = None → initial_types = None →
   run = (s, inl (AssertionError
     "Cannot generate test input data. Either pass some input data or the initial_types")))
  ∧
  (is_Some test_data ∨ is_Some initial_types →
   resolve_inputs graph input_names = [] →
   run = (s, inl (AssertionError
     "Provided input name does not match with any model's input.")))
  ∧
  (∀ ts, initial_types = Some ts → length ts ≠ 1 →
         length (resolve_inputs graph input_names) = 1 →
   run = (s, inl (AssertionError
     "len(initial_types) {} differs from len(inputs) {}."))).
Proof.
  intros Ht Ho run. subst run. rewrite convert_onnxml_cases, Ht, Ho.
  split_and!.
  - intros -> ->. rewrite bool_decide_eq_false_2; [done|].
    by intros [[? ?]|[? ?]].
  - intros Hsome ->. rewrite bool_decide_eq_true_2 by done.
    rewrite bool_decide_eq_false_2; [done|]. simpl. lia.
  - intros ts -> Hts Hin.
    rewrite !bool_decide_eq_true_2 by (eauto || lia).
    by rewrite bool_decide_eq_false_2.
Qed.

(** X21: without test data the declared shape is checked before the
    declared type. When the checks on the arguments pass, an initial type
    without a shape, or with a shape that has not exactly two dimensions, is
    refused with an assertion error whatever tensor type it is, and nothing
    has been built by then. *)
Theorem declared_shape_is_checked
    graph output_model_name name ty input_names output_names target_opset s :
  entry_checks_pass env graph input_names (Some [(name, ty)]) →
  let run :=
    onnxml (Some graph) output_model_name (Some [(name, ty)]) input_names
      output_names None target_opset s in
  (dt_shape ty = None →
   run = (s, inl (AssertionError
     "Cannot generate test input data. Initial_types do not contain shape information.")))
  ∧
  (∀ shape, dt_shape ty = Some shape → length shape ≠ 2 →
   run = (s, inl (AssertionError
     "Hummingbird currently support only inputs with len(shape) == 2."))).
Proof.
  intros (Ht & Ho & Hin & Hts) run. subst run.
  rewrite convert_onnxml_cases, Ht, Ho.
  rewrite !bool_decide_eq_true_2 by (eauto || lia).
  unfold synthesize_test_data, getitem, bind, assert. cbn.
  split.
  - by intros ->.
  - intros shape -> Hlen. by rewrite bool_decide_eq_false_2.
Qed.

Lemma filter_all {A : Type} (P : A → Prop) `{!∀ x, Decision (P x)}
    (l : list A) :
  Forall P l → filter P l = l.
Proof.
  induction 1 as [|x l Hx Hl IH]; [done|].
  rewrite filter_cons, decide_True by done. by rewrite IH.
Qed.

(** X22: how input names select inputs. Without input names every
    declared input of the model is selected. With input names the selected
    inputs are those whose name is listed, in the order of their
    declaration: names that match nothing and repeated names add
    nothing. *)
Theorem input_selection (graph : GraphProto Node Init) names :
  resolve_inputs graph None = input graph ∧
  resolve_inputs graph (Some names) `sublist_of` input graph ∧
  (∀ i, i ∈ resolve_inputs graph (Some names)
        ↔ i ∈ input graph ∧ vi_name i ∈ names).
Proof.
  unfold resolve_inputs. cbn. split_and!.
  - apply filter_all, Forall_forall. intros i Hi.
    by apply list_elem_of_fmap_2.
  - apply sublist_filter.
  - intros i. rewrite list_elem_of_filter. tauto.
Qed.

(** X23: the methods attached to the models check the backend first. For
    a backend whose lower-cased name is not supported they raise
    MissingBackend and nothing else happens, not even the recording of
    [n_features]; for a supported one they are the entry points. *)
Theorem backend_check_comes_first self backend test_input s :
  (lower backend ∉ backend_map →
   _to_sklearn env parse_sklearn_api_model topology_converter backend_map
     self backend test_input s
     = (s, inl (MissingBackend "Backend: {}")) ∧
   _to_lightgbm env parse_sklearn_api_model topology_converter backend_map
     self backend test_input s
     = (s, inl (MissingBackend "Backend: {}")) ∧
   _to_xgboost env _features_count parse_sklearn_api_model
     topology_converter backend_map self backend test_input s
     = (s, inl (MissingBackend "Backend: {}")))
  ∧
  (lower backend ∈ backend_map →
   _to_sklearn env parse_sklearn_api_model topology_converter backend_map
     self backend test_input s = sklearn self test_input s ∧
   _to_lightgbm env parse_sklearn_api_model topology_converter backend_map
     self backend test_input s = lightgbm self test_input s ∧
   _to_xgboost env _features_count parse_sklearn_api_model
     topology_converter backend_map self backend test_input s
     = xgboost self test_input s).
Proof.
  unfold _to_sklearn, _to_lightgbm, _to_xgboost, _supported_backend_check.
  split; intros Hb.
  - unfold bind. by rewrite bool_decide_eq_false_2.
  - unfold bind at 1 2 3. by rewrite bool_decide_eq_true_2.
Qed.

End EntryPointExtra.

(** ** Runs *)

Lemma parse_failure_propagates_witness :
  convert_sklearn all_installed toy_parse_fails toy_topology_converter
    (Some (Some 3%Z)) None (start ∅)
  = (after_calls (start ∅) [ParseSklearnApiModel],
     inl (RuntimeError "unsupported model")).
Proof.
  apply (parse_failure_propagates all_installed toy_parse_fails
           toy_topology_converter (Some 3%Z) None (start ∅)); reflexivity.
Defined.

Lemma convert_sklearn_returns_witness :
  ∃ m topology,
    Some (Some 3%Z) = Some m ∧ torch_installed all_installed = true ∧
    toy_parse m = inr topology ∧
    toy_topology_converter topology docstring_config
      = inr docstring_config ∧
    extra_config (toy_sklearn (Some (Some 3%Z)) None
                    (start docstring_config)).1 = docstring_config ∧
    calls (toy_sklearn (Some (Some 3%Z)) None (start docstring_config)).1
      = [ParseSklearnApiModel; TopologyConverter].
Proof.
  apply (convert_sklearn_returns all_installed toy_parse
           toy_topology_converter (Some (Some 3%Z)) None
           (start docstring_config)
           (toy_sklearn (Some (Some 3%Z)) None (start docstring_config)).1
           docstring_config).
  reflexivity.
Defined.

(** The call of the docstring: [convert_xgboost(xgb_model, [],
    extra_config={"n_features":200})]. *)
Lemma n_features_given_skips_inference_witness :
  toy_xgboost (Some None) (Some (PyOther "list")) (start docstring_config)
  = toy_sklearn (Some None) (Some (PyOther "list")) (start docstring_config).
Proof.
  apply (n_features_given_skips_inference all_installed toy_features_count
           toy_parse toy_topology_converter (Some None)
           (Some (PyOther "list")) (start docstring_config) (VInt 200));
    reflexivity.
Defined.

(** A first model reports 200 features, a second one 10: the second call
    finds 200 recorded and keeps it. *)
Lemma xgboost_keeps_recorded_count_witness :
  let s1 := (toy_xgboost (Some (Some 200%Z)) None (start ∅)).1 in
  extra_config (toy_xgboost (Some (Some 10%Z)) None s1).1 = extra_config s1
  ∧ extra_config s1 !! N_FEATURES = Some (VInt 200).
Proof.
  split; [|reflexivity].
  apply (xgboost_keeps_recorded_count all_installed toy_features_count
           toy_parse toy_topology_converter (Some (Some 200%Z)) None
           (Some (Some 10%Z)) None (start ∅)).
  by eexists.
Defined.

Lemma xgboost_records_before_failing_witness :
  toy_xgboost None (Some (PyNdarray float64 [5; 7])) (start ∅)
  = (start {[ "n_features" := VInt 7 ]}, inl (AssertionError "")).
Proof.
  apply (xgboost_records_before_failing all_installed toy_features_count
           toy_parse toy_topology_converter float64 5 7 (start ∅));
    reflexivity.
Defined.

Lemma missing_runtime_raises_first_witness :
  convert_lightgbm without_lightgbm toy_parse toy_topology_converter
    (Some (Some 3%Z)) None (start ∅)
  = (start ∅,
     inl (AssertionError
            "To convert LightGBM models you need to instal LightGBM.")).
Proof.
  apply (missing_runtime_raises_first without_lightgbm toy_features_count
           toy_parse toy_topology_converter (Some (Some 3%Z)) None
           (start ∅)).
  reflexivity.
Defined.

Lemma supplied_test_data_passes_through_witness :
  toy_onnxml (Some one_input) None (Some [("X", string_1_20)]) (Some ["X"])
    None (Some (PyOther "DataFrame")) 9 (start ∅)
  = (after_calls (start ∅) [BuildFromOnnx; LinkedNodeConverter],
     inr (PyOther "DataFrame")).
Proof.
  apply (supplied_test_data_passes_through all_installed
           toy_linked_node_converter toy_build one_input None
           (Some [("X", string_1_20)]) (Some ["X"]) None
           (PyOther "DataFrame") 9 (start ∅) tt).
  - split_and!; try reflexivity. intros ts [= <-]. reflexivity.
  - reflexivity.
Defined.

Lemma build_failure_propagates_witness :
  toy_onnxml_build_fails (Some one_input) None None None None
    (Some (PyNdarray float32 [1; 20])) 9 (start ∅)
  = (after_calls (start ∅) [BuildFromOnnx],
     inl (RuntimeError "unsupported node")).
Proof.
  apply (build_failure_propagates all_installed toy_linked_node_converter
           toy_build_fails one_input None None None None
           (PyNdarray float32 [1; 20]) 9 (start ∅)).
  - split_and!; try reflexivity. intros ts [=].
  - reflexivity.
Defined.

Lemma onnxml_argument_checks_witness :
  toy_onnxml (Some one_input) None None None None None 9 (start ∅)
  = (start ∅, inl (AssertionError
      "Cannot generate test input data. Either pass some input data or the initial_types"))
  ∧
  toy_onnxml (Some one_input) None None (Some ["Z"]) None
    (Some (PyNdarray float32 [1; 20])) 9 (start ∅)
  = (start ∅, inl (AssertionError
      "Provided input name does not match with any model's input."))
  ∧
  toy_onnxml (Some one_input) None
    (Some [("X", float_1_20); ("Y", float_1_20)]) None None
    (Some (PyNdarray float32 [1; 20])) 9 (start ∅)
  = (start ∅, inl (AssertionError
      "len(initial_types) {} differs from len(inputs) {}.")).
Proof.
  split_and!.
  - apply (onnxml_argument_checks all_installed toy_linked_node_converter
             toy_build one_input None None None None None 9 (start ∅)
             eq_refl eq_refl); reflexivity.
  - apply (onnxml_argument_checks all_installed toy_linked_node_converter
             toy_build one_input None None (Some ["Z"]) None
             (Some (PyNdarray float32 [1; 20])) 9 (start ∅)
             eq_refl eq_refl); [left; by eexists|reflexivity].
  - apply (onnxml_argument_checks all_installed toy_linked_node_converter
             toy_build one_input None
             (Some [("X", float_1_20); ("Y", float_1_20)]) None None
             (Some (PyNdarray float32 [1; 20])) 9 (start ∅)
             eq_refl eq_refl)
      with (ts := [("X", float_1_20); ("Y", float_1_20)]);
      [reflexivity|simpl; lia|reflexivity].
Defined.

Lemma declared_shape_is_checked_witness :
  toy_onnxml (Some one_input) None (Some [("X", float_no_shape)]) None None
    None 9 (start ∅)
  = (start ∅, inl (AssertionError
      "Cannot generate test input data. Initial_types do not contain shape information."))
  ∧
  toy_onnxml (Some one_input) None (Some [("X", float_rank_3)]) None None
    None 9 (start ∅)
  = (start ∅, inl (AssertionError
      "Hummingbird currently support only inputs with len(shape) == 2.")).
Proof.
  split.
  - apply (declared_shape_is_checked all_installed toy_linked_node_converter
             toy_build one_input None "X" float_no_shape None None 9
             (start ∅)).
    + split_and!; try reflexivity. intros ts [= <-]. reflexivity.
    + reflexivity.
  - apply (declared_shape_is_checked all_installed toy_linked_node_converter
             toy_build one_input None "X" float_rank_3 None None 9
             (start ∅)) with (shape := [DInt 1; DInt 2; DInt 3]).
    + split_and!; try reflexivity. intros ts [= <-]. reflexivity.
    + reflexivity.
    + simpl. lia.
Defined.

Lemma backend_check_comes_first_witness :
  _to_xgboost all_installed toy_features_count toy_parse
    toy_topology_converter toy_backends (Some (Some 200%Z)) "TensorFlow"
    None (start ∅)
  = (start ∅, inl (MissingBackend "Backend: {}"))
  ∧
  _to_xgboost all_installed toy_features_count toy_parse
    toy_topology_converter toy_backends (Some (Some 200%Z)) "PyTorch"
    None (start ∅)
  = toy_xgboost (Some (Some 200%Z)) None (start ∅).
Proof.
  split.
  - apply (backend_check_comes_first all_installed toy_features_count
             toy_parse toy_topology_converter toy_backends
             (Some (Some 200%Z)) "TensorFlow" None (start ∅)).
    apply (bool_decide_unpack _). vm_compute. exact I.
  - apply (backend_check_comes_first all_installed toy_features_count
             toy_parse toy_topology_converter toy_backends
             (Some (Some 200%Z)) "PyTorch" None (start ∅)).
    apply (bool_decide_unpack _). vm_compute. exact I.
Defined.

End ConvertExtra.
